(** * Verification of the multi-round tool protocol of the RAG chatbot

    A shallow embedding of [backend/ai_generator.py] (class [AIGenerator])
    together with the tool registry it talks to, and the properties of the
    protocol: bound on model calls, round-limit policy, tool-result
    correlation, message accumulation.

    Python objects that live on the heap and are mutated or that perform I/O
    (the Anthropic client, the tool manager) are modelled as state machines;
    a run of a method is a function from the heap before the call to the
    outcome (a value or a raised exception), the heap after the call and the
    trace of external calls issued in between. *)

From Stdlib Require Import ZArith List String Ascii Bool Lia.
From Stdlib Require Import DecimalString.
Import ListNotations.

Local Open Scope string_scope.
Local Open Scope list_scope.
Local Open Scope Z_scope.

(** ** Python values and exceptions *)

Inductive Value : Type :=
| VStr (s : string)
| VInt (n : Z)
| VNone.

(** A keyword-argument dictionary, [**kwargs], in insertion order. *)
Definition kwargs : Type := list (string * Value).

Inductive exn : Type :=
| AttributeError (attr : string)
| IndexError
| TypeError (msg : string)
| ValueError (msg : string)
| RecursionError
| StopIteration
| APIError (msg : string).

Inductive result (A : Type) : Type :=
| Ok (a : A)
| Raise (e : exn).

Arguments Ok {A} a.
Arguments Raise {A} e.

Definition dquote : string := String (ascii_of_nat 34) EmptyString.

(** ** Data model (blocks, messages, request parameters) *)

(** Content blocks of a model response, as the Anthropic SDK types them:
    a text block has a [text] attribute, a tool-use block has [id], [name]
    and [input]; every block has a [type]. (The mock block of the test
    suite gives every block all five attributes, [text] defaulting to the
    empty string; the SDK's tool-use block has no [text].) *)
Inductive ContentBlock : Type :=
| TextBlock (text : string)
| ToolUseBlock (id : string) (name : string) (input : kwargs).

Definition type (b : ContentBlock) : string :=
  match b with
  | TextBlock _ => "text"
  | ToolUseBlock _ _ _ => "tool_use"
  end.

(** [block.text]: attribute lookup, which fails on a block without it. *)
Definition text (b : ContentBlock) : result string :=
  match b with
  | TextBlock s => Ok s
  | ToolUseBlock _ _ _ => Raise (AttributeError "text")
  end.

Record Response : Type := mkResponse {
  content : list ContentBlock;
  stop_reason : string
}.

(** The dict [{"type": "tool_result", "tool_use_id": ..., "content": ...}]. *)
Record ToolResult : Type := mkToolResult {
  tr_type : string;
  tool_use_id : string;
  tr_content : string
}.

(** The ["content"] entry of a message: the raw query string, the content
    blocks of an assistant turn, or a list of tool results. *)
Inductive MessageContent : Type :=
| ContentText (s : string)
| ContentBlocks (bs : list ContentBlock)
| ContentToolResults (rs : list ToolResult).

(** The dict [{"role": ..., "content": ...}]. *)
Record Message : Type := mkMessage {
  role : string;
  msg_content : MessageContent
}.

Record InputSchema : Type := mkInputSchema {
  schema_type : string;
  properties : list (string * string);
  required : list string
}.

(** A tool definition dict; the ["name"] key may be missing. *)
Record ToolDefinition : Type := mkToolDefinition {
  td_name : option string;
  td_description : string;
  td_input_schema : InputSchema
}.

(** The dict [{"type": "auto"}]. *)
Record ToolChoice : Type := mkToolChoice { choice_type : string }.

(** Keyword arguments of [client.messages.create]; [None] in [p_tools] and
    [p_tool_choice] stands for an absent key. *)
Record ApiParams : Type := mkApiParams {
  p_model : string;
  p_temperature : Z;
  p_max_tokens : Z;
  p_messages : list Message;
  p_system : string;
  p_tools : option (list ToolDefinition);
  p_tool_choice : option ToolChoice
}.

(** ** External collaborators *)

(** The LLM transport: [client.messages.create], called with keyword
    arguments. *)
Class LLMClient (C : Type) : Type :=
  client_messages_create : ApiParams -> C -> result Response * C.

(** Whatever is passed as [tool_manager]: its [execute_tool] method, called
    with a tool name and keyword arguments. *)
Class ToolExecutor (T : Type) : Type :=
  manager_execute_tool : string -> kwargs -> T -> result string * T.

(** External calls, with their outcome, in the order they are issued. A
    model call is recorded with its parameters as they are when the call is
    made: [_process_tool_chain] appends to one list object and passes it to
    every later call, so a spy that keeps the reference sees the later
    appends too, but the client receives the list as it stands. *)
Inductive Event : Type :=
| ModelCall (p : ApiParams) (r : result Response)
| ToolExec (name : string) (input : kwargs) (r : result string).

Fixpoint model_calls (tr : list Event) : list ApiParams :=
  match tr with
  | [] => []
  | ModelCall p _ :: tr' => p :: model_calls tr'
  | ToolExec _ _ _ :: tr' => model_calls tr'
  end.

Fixpoint tool_execs (tr : list Event) : list (string * kwargs) :=
  match tr with
  | [] => []
  | ModelCall _ _ :: tr' => tool_execs tr'
  | ToolExec n i _ :: tr' => (n, i) :: tool_execs tr'
  end.

(** ** Truthiness *)

Definition truthy_str (s : option string) : bool :=
  match s with
  | Some (String _ _) => true
  | _ => false
  end.

Definition truthy_list {A : Type} (l : option (list A)) : bool :=
  match l with
  | Some (_ :: _) => true
  | _ => false
  end.

Definition truthy_obj {A : Type} (o : option A) : bool :=
  match o with
  | Some _ => true
  | None => false
  end.

Definition nonempty {A : Type} (l : list A) : bool :=
  match l with
  | [] => false
  | _ :: _ => true
  end.

(** ** The computation monad: heap passing, exceptions and a call trace *)

Section Heap.

Context {C T : Type}.

(** The two objects reachable from an [AIGenerator] call. *)
Record World : Type := mkWorld {
  client : C;
  manager : T
}.

Definition Run (A : Type) : Type := (result A * World * list Event)%type.

Definition outcome {A : Type} (x : Run A) : result A := fst (fst x).
Definition final {A : Type} (x : Run A) : World := snd (fst x).
Definition trace {A : Type} (x : Run A) : list Event := snd x.

Definition M (A : Type) : Type := World -> Run A.

Definition ret {A : Type} (a : A) : M A := fun w => (Ok a, w, []).

Definition raise {A : Type} (e : exn) : M A := fun w => (Raise e, w, []).

Definition lift {A : Type} (r : result A) : M A := fun w => (r, w, []).

Definition bind {A B : Type} (m : M A) (f : A -> M B) : M B :=
  fun w =>
    match m w with
    | (Ok a, w1, t1) =>
        match f a w1 with
        | (r, w2, t2) => (r, w2, t1 ++ t2)
        end
    | (Raise e, w1, t1) => (Raise e, w1, t1)
    end.

End Heap.

Arguments World : clear implicits.
Arguments M : clear implicits.
Arguments Run : clear implicits.

Declare Scope py_scope.
Delimit Scope py_scope with py.
Notation "x <- m ;; k" := (bind m (fun x => k))
  (at level 100, m at next level, right associativity) : py_scope.

(** ** [class AIGenerator] *)

Module AIGenerator.

(** The class attribute [SYSTEM_PROMPT]. *)
Definition SYSTEM_PROMPT : string :=
" You are an AI assistant specialized in course materials and educational content with access to comprehensive search tools for course information.

Search Tool Usage:
- Use the search tool **only** for questions about specific course content or detailed educational materials
- You may use up to 2 tool calls per query if needed to fully answer the question
- Synthesize search results into accurate, fact-based responses
- If search yields no results, state this clearly without offering alternatives

Course Outline Tool Usage:
- Use the outline tool when users ask about course structure, outline, table of contents, or lesson lists
- Returns course title, course link, and complete lesson list with lesson numbers and titles
- Use this instead of search when the user wants to know what lessons a course contains or asks for an overview

Sequential Tool Use:
- For complex queries, you may use one tool, review the results, then use another tool
- Example: Get a course outline first, then search for specific content based on what you learned
- Each tool call helps build context for a complete answer

Response Protocol:
- **General knowledge questions**: Answer using existing knowledge without searching
- **Course-specific questions**: Search first, then answer
- **No meta-commentary**:
 - Provide direct answers only — no reasoning process, search explanations, or question-type analysis
 - Do not mention " ++ dquote ++ "based on the search results" ++ dquote ++ "


All responses must be:
1. **Brief, Concise and focused** - Get to the point quickly
2. **Educational** - Maintain instructional value
3. **Clear** - Use accessible language
4. **Example-supported** - Include relevant examples when they aid understanding
Provide only the direct answer to what was asked.
".

(** The pre-built [self.base_params]. *)
Record BaseParams : Type := mkBaseParams {
  bp_model : string;
  bp_temperature : Z;
  bp_max_tokens : Z
}.

(** The instance; its [client] attribute is the LLM object of the heap. *)
Record t : Type := mkAIGenerator {
  model : string;
  base_params : BaseParams
}.

Definition __init__ (api_key : string) (model : string) : t :=
  {| model := model;
     base_params := {| bp_model := model;
                       bp_temperature := 0;
                       bp_max_tokens := 800 |} |}.

(** A reference to the tool manager object of the heap; the parameter
    [tool_manager] is such a reference or [None]. *)
Inductive ToolManagerRef : Type := the_tool_manager.

(** [response.content[0].text] *)
Definition first_block_text (response : Response) : result string :=
  match content response with
  | [] => Raise IndexError
  | content_block :: _ => text content_block
  end.

Section Methods.

Context {C T : Type} `{LLMClient C} `{ToolExecutor T}.

Local Open Scope py_scope.

(** [self.client.messages.create(...)]: steps the client and records the
    call. *)
Definition messages_create (params : ApiParams) : M C T Response :=
  fun w =>
    let (r, c') := client_messages_create params (client w) in
    (r, {| client := c'; manager := manager w |}, [ModelCall params r]).

(** [tool_manager.execute_tool(name, ...)]: the method lookup fails on
    [None]; otherwise steps the manager and records the execution. *)
Definition execute_tool (tool_manager : option ToolManagerRef)
    (name : string) (input : kwargs) : M C T string :=
  match tool_manager with
  | None => raise (AttributeError "execute_tool")
  | Some _ =>
      fun w =>
        let (r, t') := manager_execute_tool name input (manager w) in
        (r, {| client := client w; manager := t' |}, [ToolExec name input r])
  end.

Definition assistant_message (response : Response) : Message :=
  {| role := "assistant"; msg_content := ContentBlocks (content response) |}.

Definition tool_result_message (tool_results : list ToolResult) : Message :=
  {| role := "user"; msg_content := ContentToolResults tool_results |}.

(** The loop [for content_block in response.content] of
    [_process_tool_chain], with [tool_results] as its accumulator. *)
Fixpoint execute_tool_calls (tool_manager : option ToolManagerRef)
    (blocks : list ContentBlock) (tool_results : list ToolResult)
    : M C T (list ToolResult) :=
  match blocks with
  | [] => ret tool_results
  | content_block :: blocks' =>
      match content_block with
      | ToolUseBlock id name input =>
          tool_result <- execute_tool tool_manager name input ;;
          execute_tool_calls tool_manager blocks'
            (tool_results ++ [ {| tr_type := "tool_result";
                                  tool_use_id := id;
                                  tr_content := tool_result |} ])
      | TextBlock _ =>
          execute_tool_calls tool_manager blocks' tool_results
      end
  end.

(** [_process_tool_chain], by recursion on the number of rounds left,
    [max_rounds - current_round]: the recursive call is made only when
    [current_round < max_rounds], with [current_round + 1]. The frame
    limit of the interpreter is not modelled: in Python a chain of about a
    thousand nested rounds raises [RecursionError]. *)
Fixpoint process_tool_chain_rec (rounds_left : nat) (self : t)
    (response : Response) (messages : list Message) (system_content : string)
    (tools : list ToolDefinition) (tool_manager : option ToolManagerRef)
    (current_round max_rounds : Z) : M C T string :=
  let messages := messages ++ [assistant_message response] in
  tool_results <- execute_tool_calls tool_manager (content response) [] ;;
  let messages :=
    if nonempty tool_results
    then messages ++ [tool_result_message tool_results]
    else messages in
  let include_tools := current_round <? max_rounds in
  let next_params :=
    {| p_model := bp_model (base_params self);
       p_temperature := bp_temperature (base_params self);
       p_max_tokens := bp_max_tokens (base_params self);
       p_messages := messages;
       p_system := system_content;
       p_tools := if include_tools then Some tools else None;
       p_tool_choice :=
         if include_tools then Some {| choice_type := "auto" |} else None |} in
  next_response <- messages_create next_params ;;
  if (stop_reason next_response =? "tool_use")%string
     && include_tools && (current_round <? max_rounds)
  then
    match rounds_left with
    | S rounds_left' =>
        process_tool_chain_rec rounds_left' self next_response messages
          system_content tools tool_manager (current_round + 1) max_rounds
    | O => raise RecursionError
    end
  else lift (first_block_text next_response).

Definition _process_tool_chain (self : t)
    (response : Response) (messages : list Message) (system_content : string)
    (tools : list ToolDefinition) (tool_manager : option ToolManagerRef)
    (current_round max_rounds : Z) : M C T string :=
  process_tool_chain_rec (Z.to_nat (max_rounds - current_round)) self
    response messages system_content tools tool_manager
    current_round max_rounds.

Definition system_content_of (conversation_history : option string) : string :=
  if truthy_str conversation_history
  then
    match conversation_history with
    | Some h => SYSTEM_PROMPT ++ "

Previous conversation:
" ++ h
    | None => SYSTEM_PROMPT
    end
  else SYSTEM_PROMPT.

Definition generate_response (self : t) (query : string)
    (conversation_history : option string)
    (tools : option (list ToolDefinition))
    (tool_manager : option ToolManagerRef)
    (max_rounds : Z) : M C T string :=
  let system_content := system_content_of conversation_history in
  let api_params :=
    {| p_model := bp_model (base_params self);
       p_temperature := bp_temperature (base_params self);
       p_max_tokens := bp_max_tokens (base_params self);
       p_messages := [ {| role := "user"; msg_content := ContentText query |} ];
       p_system := system_content;
       p_tools := if truthy_list tools then tools else None;
       p_tool_choice :=
         if truthy_list tools
         then Some {| choice_type := "auto" |} else None |} in
  response <- messages_create api_params ;;
  if (stop_reason response =? "tool_use")%string
     && truthy_obj tool_manager && truthy_list tools
  then
    match tools with
    | Some tools =>
        _process_tool_chain self response (p_messages api_params)
          system_content tools tool_manager 1 max_rounds
    | None => lift (first_block_text response)
    end
  else lift (first_block_text response).

End Methods.

End AIGenerator.

(** ** The tool registry and the search tool ([search_tools.py])

    The module [search_tools] is imported by the tests but its source is not
    part of the files at hand; its classes are modelled from the design
    document (sections 3, 4.1, 4.2 and 6) and from what the tests observe. *)

Module SearchTools.

(** Modelled from the spec: the [Source] provenance record of section 3,
    [{displayText, url?}]; missing is the class that builds it. *)
Record Source : Type := mkSource {
  displayText : string;
  url : option string
}.

(** Modelled from the spec: one retrieved passage with its metadata, as the
    retrieval collaborator of section 6 returns it ([search_tools.py] and
    [vector_store.py] are missing); the distance of a hit plays no part in
    the tool and is left out. *)
Record Hit : Type := mkHit {
  documentText : string;
  course_title : string;
  lesson_number : option Z
}.

(** Modelled from the spec: [SearchResultSet | ErrorText] of section 6. *)
Inductive SearchResults : Type :=
| ResultSet (hits : list Hit)
| ErrorText (error : string).

(** Modelled from the spec: the consumed interface of the retrieval
    collaborator (section 6), [search] and [lessonLink]; the class
    [VectorStore] itself is missing. *)
Record VectorStore : Type := mkVectorStore {
  search : string -> option string -> option Z -> SearchResults;
  lessonLink : string -> Z -> option string
}.

Definition string_of_Z (n : Z) : string := NilZero.string_of_int (Z.to_int n).

(** Modelled from the spec: the header text of a hit (section 4.2), the
    course title optionally suffixed with [" - Lesson <n>"]. *)
Definition hit_title (h : Hit) : string :=
  match lesson_number h with
  | Some n => course_title h ++ " - Lesson " ++ string_of_Z n
  | None => course_title h
  end.

(** Modelled from the spec: the [Source] recorded for one hit (section 4.2);
    the link is looked up only when the hit carries a lesson number. *)
Definition source_of_hit (store : VectorStore) (h : Hit) : Source :=
  {| displayText := hit_title h;
     url := match lesson_number h with
            | Some n => lessonLink store (course_title h) n
            | None => None
            end |}.

Definition hits_of (r : SearchResults) : list Hit :=
  match r with
  | ResultSet hits => hits
  | ErrorText _ => []
  end.

(** Modelled from the spec: rendering of the hits (section 4.2), a header
    line in brackets, the passage, blocks separated by a blank line. *)
Definition _format_results (hits : list Hit) : string :=
  String.concat "

" (map (fun h => ("[" ++ hit_title h ++ "]
" ++ documentText h)%string) hits).

(** Modelled from the spec: the clauses naming the active filters in the
    message for an empty result (section 4.2), course first, then lesson. *)
Definition filter_clauses (course_name : option string)
    (lesson_number : option Z) : list string :=
  match course_name with
  | Some c => [("in course '" ++ c ++ "'")%string]
  | None => []
  end ++
  match lesson_number with
  | Some n => [("in lesson " ++ string_of_Z n)%string]
  | None => []
  end.

(** Modelled from the spec: the search tool instance of section 4.2, the
    class [CourseSearchTool] of the missing [search_tools.py]: the
    collaborator it delegates to and its held source list. *)
Record CourseSearchTool : Type := mkCourseSearchTool {
  store : VectorStore;
  last_sources : list Source
}.

(** Modelled from the spec: [CourseSearchTool.execute] (section 4.2). The
    text is the collaborator's error verbatim, the not-found message naming
    the filters, or the formatted hits; as a side effect the held source
    list is replaced by one [Source] per hit. *)
Definition execute (self : CourseSearchTool) (query : string)
    (course_name : option string) (lesson_number : option Z)
    : string * CourseSearchTool :=
  let results := search (store self) query course_name lesson_number in
  let self' := {| store := store self;
                  last_sources :=
                    map (source_of_hit (store self)) (hits_of results) |} in
  match results with
  | ErrorText error => (error, self')
  | ResultSet [] =>
      ((String.concat " "
          ("No relevant content found"
             :: filter_clauses course_name lesson_number) ++ ".")%string,
       self')
  | ResultSet hits => (_format_results hits, self')
  end.

(** Modelled from the spec: the capability contract of section 9,
    a definition, an [execute] taking keyword arguments, and held sources, for the missing tool
    classes. A tool's mutable state is its held source list, so [execute]
    maps the keyword arguments and the held list to a text (or an
    exception) and the new held list. *)
Record Tool : Type := mkTool {
  get_tool_definition : ToolDefinition;
  tool_execute : kwargs -> list Source -> result string * list Source;
  tool_sources : list Source
}.

Fixpoint kwargs_get (key : string) (kw : kwargs) : option Value :=
  match kw with
  | [] => None
  | (k, v) :: kw' => if (k =? key)%string then Some v else kwargs_get key kw'
  end.

(** Modelled from the spec: the declared definition of the search tool
    (sections 3 and 4.2); the name is the one the tests observe. *)
Definition search_tool_definition : ToolDefinition :=
  {| td_name := Some "search_course_content";
     td_description := "Search course materials with smart course name matching and lesson filtering";
     td_input_schema :=
       {| schema_type := "object";
          properties := [("query", "string"); ("course_name", "string");
                         ("lesson_number", "integer")];
          required := ["query"] |} |}.

(** Modelled from the spec: the search tool seen through the capability
    contract; binding the keyword arguments fails when the required
    [query] is absent. *)
Definition search_tool (s : CourseSearchTool) : Tool :=
  {| get_tool_definition := search_tool_definition;
     tool_execute := fun kw held =>
       match kwargs_get "query" kw with
       | Some (VStr query) =>
           let course_name :=
             match kwargs_get "course_name" kw with
             | Some (VStr c) => Some c
             | _ => None
             end in
           let lesson_number :=
             match kwargs_get "lesson_number" kw with
             | Some (VInt n) => Some n
             | _ => None
             end in
           let (text, s') :=
             execute {| store := store s; last_sources := held |}
               query course_name lesson_number in
           (Ok text, last_sources s')
       | _ => (Raise (TypeError "execute() missing required argument: 'query'"), held)
       end;
     tool_sources := last_sources s |}.

(** Modelled from the spec: the Tool Registry of section 4.1, the class
    [ToolManager] of the missing [search_tools.py]: the name-to-tool
    mapping, in registration order. *)
Record ToolManager : Type := mkToolManager {
  tools : list (string * Tool)
}.

Fixpoint dict_get {A : Type} (key : string) (d : list (string * A)) : option A :=
  match d with
  | [] => None
  | (k, v) :: d' => if (k =? key)%string then Some v else dict_get key d'
  end.

(** [d[key] = v]: overwrites in place, or appends a new key. *)
Fixpoint dict_set {A : Type} (key : string) (v : A) (d : list (string * A))
    : list (string * A) :=
  match d with
  | [] => [(key, v)]
  | (k, v0) :: d' =>
      if (k =? key)%string then (k, v) :: d' else (k, v0) :: dict_set key v d'
  end.

(** Modelled from the spec: [register(tool)] of section 4.1; a missing or
    empty name is a configuration error, an existing name is overwritten. *)
Definition register_tool (self : ToolManager) (tool : Tool)
    : result ToolManager :=
  match td_name (get_tool_definition tool) with
  | Some (String a s) =>
      Ok {| tools := dict_set (String a s) tool (tools self) |}
  | _ => Raise (ValueError "Tool must have a 'name' in its definition")
  end.

(** Modelled from the spec: [definitions()] of section 4.1. *)
Definition get_tool_definitions (self : ToolManager) : list ToolDefinition :=
  map (fun kv => get_tool_definition (snd kv)) (tools self).

(** Modelled from the spec: [execute] with a name and keyword arguments, of section 4.1;
    an absent name gives the literal not-found message the tests observe,
    a present one runs the tool and stores its new held sources. *)
Definition execute_tool (self : ToolManager) (tool_name : string)
    (arguments : kwargs) : result string * ToolManager :=
  match dict_get tool_name (tools self) with
  | None => (Ok ("Tool '" ++ tool_name ++ "' not found")%string, self)
  | Some tool =>
      let (r, held) := tool_execute tool arguments (tool_sources tool) in
      (r, {| tools :=
               dict_set tool_name
                 {| get_tool_definition := get_tool_definition tool;
                    tool_execute := tool_execute tool;
                    tool_sources := held |} (tools self) |})
  end.

(** Modelled from the spec: [collectedSources()] of section 4.1, the
    concatenation in registration order of the held sources. *)
Definition get_last_sources (self : ToolManager) : list Source :=
  flat_map (fun kv => tool_sources (snd kv)) (tools self).

(** Modelled from the spec: [resetSources()] of section 4.1, which clears
    the held list of every registered tool. *)
Definition reset_sources (self : ToolManager) : ToolManager :=
  {| tools :=
       map (fun kv =>
              (fst kv,
               {| get_tool_definition := get_tool_definition (snd kv);
                  tool_execute := tool_execute (snd kv);
                  tool_sources := [] |})) (tools self) |}.

(** The registry is what [AIGenerator] receives as [tool_manager]. *)
#[export] Instance ToolManager_executor : ToolExecutor ToolManager :=
  fun name input self => execute_tool self name input.

(** [s] occurs in [t]: Python's [s in t] on strings. *)
Definition contains (t s : string) : Prop :=
  exists pre post, t = (pre ++ s ++ post)%string.

End SearchTools.

(** ** Test doubles: a scripted client and a constant tool manager *)

(** A client that answers from a script, one entry per call, like a mock
    with a [side_effect] list. *)
Definition ScriptedClient : Type := list (result Response).

#[export] Instance ScriptedClient_client : LLMClient ScriptedClient :=
  fun _ script =>
    match script with
    | [] => (Raise StopIteration, [])
    | r :: script' => (r, script')
    end.

(** A tool manager whose [execute_tool] always returns [return_value]. *)
Record MockToolManager : Type := mkMockToolManager { return_value : string }.

#[export] Instance MockToolManager_executor : ToolExecutor MockToolManager :=
  fun _ _ m => (Ok (return_value m), m).

(** The responses and objects the test suite runs the generator on. *)
Module Fixtures.

Definition generator : AIGenerator.t :=
  AIGenerator.__init__ "test-key" "claude-test".

Definition no_schema : InputSchema :=
  {| schema_type := "object"; properties := []; required := [] |}.

Definition search_schema : list ToolDefinition :=
  [ {| td_name := Some "search"; td_description := "";
       td_input_schema := no_schema |} ].

Definition mock_text_response : Response :=
  {| content := [TextBlock "This is a direct answer."];
     stop_reason := "end_turn" |}.

Definition mock_tool_use_response : Response :=
  {| content :=
       [ToolUseBlock "tool_123" "search_course_content"
          [("query", VStr "MCP basics"); ("course_name", VStr "MCP")]];
     stop_reason := "tool_use" |}.

Definition mock_multi_tool_response : Response :=
  {| content :=
       [ToolUseBlock "tool_1" "search_course_content"
          [("query", VStr "first topic")];
        ToolUseBlock "tool_2" "get_course_outline"
          [("course_name", VStr "MCP Course")]];
     stop_reason := "tool_use" |}.

Definition mock_final_response : Response :=
  {| content :=
       [TextBlock "Based on the course content, here is your answer."];
     stop_reason := "end_turn" |}.

Definition mock_second_tool_use_response : Response :=
  {| content :=
       [ToolUseBlock "tool_456" "search_course_content"
          [("query", VStr "advanced topic");
           ("course_name", VStr "Advanced Course")]];
     stop_reason := "tool_use" |}.

(** A response whose text comes after a tool-use block. *)
Definition tool_then_text_response : Response :=
  {| content :=
       [ToolUseBlock "tool_789" "search_course_content"
          [("query", VStr "MCP")];
        TextBlock "answer"];
     stop_reason := "tool_use" |}.

(** A response that announces its tool request in a leading text block. *)
Definition text_then_tool_response : Response :=
  {| content :=
       [TextBlock "Let me search.";
        ToolUseBlock "tool_321" "search_course_content"
          [("query", VStr "MCP")]];
     stop_reason := "tool_use" |}.

(** The heap of a test: the scripted responses and the mocked manager. *)
Definition world (script : list Response) (tool_output : string)
    : World ScriptedClient MockToolManager :=
  {| client := map Ok script;
     manager := {| return_value := tool_output |} |}.

(** A retrieval collaborator with one passage, as in the test suite. *)
Definition mock_vector_store : SearchTools.VectorStore :=
  {| SearchTools.search := fun _ _ _ =>
       SearchTools.ResultSet
         [ {| SearchTools.documentText := "Sample content about MCP protocols";
              SearchTools.course_title := "MCP Course";
              SearchTools.lesson_number := Some 1 |} ];
     SearchTools.lessonLink := fun _ _ => Some "https://example.com/lesson/1" |}.

Definition old_source : SearchTools.Source :=
  {| SearchTools.displayText := "old source";
     SearchTools.url := Some "old-url" |}.

(** A registry holding the search tool, which still holds an old source. *)
Definition tool_manager_with_search : SearchTools.ToolManager :=
  {| SearchTools.tools :=
       [("search_course_content",
         SearchTools.search_tool
           {| SearchTools.store := mock_vector_store;
              SearchTools.last_sources := [old_source] |})] |}.

End Fixtures.

(** ** Vocabulary of the properties *)

(** The tool-use requests of a response, [(id, name, input)], in the order
    of the content blocks. *)
Fixpoint tool_uses (blocks : list ContentBlock)
    : list (string * string * kwargs) :=
  match blocks with
  | [] => []
  | ToolUseBlock id name input :: blocks' =>
      (id, name, input) :: tool_uses blocks'
  | TextBlock _ :: blocks' => tool_uses blocks'
  end.

(** The executions of the requests [uses], returning the texts [outs]. *)
Definition exec_events (uses : list (string * string * kwargs))
    (outs : list string) : list Event :=
  map (fun uo => match uo with
                 | ((_, name, input), out) => ToolExec name input (Ok out)
                 end) (combine uses outs).

(** One tool result per request of [uses], carrying the request's id and
    the text its execution returned. *)
Definition tool_results_of (uses : list (string * string * kwargs))
    (outs : list string) : list ToolResult :=
  map (fun uo => match uo with
                 | ((id, _, _), out) =>
                     {| tr_type := "tool_result";
                        tool_use_id := id;
                        tr_content := out |}
                 end) (combine uses outs).

Definition other_role (r : string) : string :=
  if (r =? "user")%string then "assistant" else "user".

(** The roles alternate, beginning with [expected]. *)
Fixpoint alternates_from (expected : string) (roles : list string) : bool :=
  match roles with
  | [] => true
  | r :: roles' =>
      (r =? expected)%string && alternates_from (other_role expected) roles'
  end.

(** The roles of a conversation after [k] tool rounds. *)
Fixpoint roles_after (k : nat) : list string :=
  match k with
  | O => []
  | S k' => "assistant" :: "user" :: roles_after k'
  end.

(** The final answer in the words of the design document: the text of the
    first text block of a response, whatever precedes it. *)
Fixpoint first_text_block (blocks : list ContentBlock) : option string :=
  match blocks with
  | [] => None
  | TextBlock s :: _ => Some s
  | ToolUseBlock _ _ _ :: blocks' => first_text_block blocks'
  end.

(** The response of the last model call of a trace. *)
Fixpoint last_response (tr : list Event) (acc : option (result Response))
    : option (result Response) :=
  match tr with
  | [] => acc
  | ModelCall _ r :: tr' => last_response tr' (Some r)
  | ToolExec _ _ _ :: tr' => last_response tr' acc
  end.

(** The conversation sent after a tool round: the assistant turn, then the
    tool results in one user turn when there are any. *)
Definition round_messages (messages : list Message) (response : Response)
    (tool_results : list ToolResult) : list Message :=
  if nonempty tool_results
  then (messages ++ [AIGenerator.assistant_message response])
         ++ [AIGenerator.tool_result_message tool_results]
  else messages ++ [AIGenerator.assistant_message response].

(** The parameters of the model call that closes round [current_round]. *)
Definition round_params (self : AIGenerator.t) (messages : list Message)
    (system_content : string) (tools : list ToolDefinition)
    (current_round max_rounds : Z) : ApiParams :=
  {| p_model := AIGenerator.bp_model (AIGenerator.base_params self);
     p_temperature := AIGenerator.bp_temperature (AIGenerator.base_params self);
     p_max_tokens := AIGenerator.bp_max_tokens (AIGenerator.base_params self);
     p_messages := messages;
     p_system := system_content;
     p_tools := if current_round <? max_rounds then Some tools else None;
     p_tool_choice :=
       if current_round <? max_rounds
       then Some {| choice_type := "auto" |} else None |}.

(** The test that sends [_process_tool_chain] into another round. *)
Definition another_round (next_response : Response)
    (current_round max_rounds : Z) : bool :=
  (stop_reason next_response =? "tool_use")%string
  && (current_round <? max_rounds) && (current_round <? max_rounds).

(** The parameters of the first model call of [generate_response]. *)
Definition initial_params (self : AIGenerator.t) (query : string)
    (conversation_history : option string)
    (tools : option (list ToolDefinition)) : ApiParams :=
  {| p_model := AIGenerator.bp_model (AIGenerator.base_params self);
     p_temperature := AIGenerator.bp_temperature (AIGenerator.base_params self);
     p_max_tokens := AIGenerator.bp_max_tokens (AIGenerator.base_params self);
     p_messages := [ {| role := "user"; msg_content := ContentText query |} ];
     p_system := AIGenerator.system_content_of conversation_history;
     p_tools := if truthy_list tools then tools else None;
     p_tool_choice :=
       if truthy_list tools then Some {| choice_type := "auto" |} else None |}.

(** The test that sends [generate_response] into the tool chain. *)
Definition enters_chain (response : Response)
    (tool_manager : option AIGenerator.ToolManagerRef)
    (tools : option (list ToolDefinition)) : bool :=
  (stop_reason response =? "tool_use")%string
  && truthy_obj tool_manager && truthy_list tools.

(** A trace cut at its first model call: the events before it and the
    parameters of that call. *)
Fixpoint split_at_model_call (tr : list Event)
    : option (list Event * ApiParams) :=
  match tr with
  | [] => None
  | ModelCall p _ :: _ => Some ([], p)
  | e :: tr' =>
      match split_at_model_call tr' with
      | Some (pre, p) => Some (e :: pre, p)
      | None => None
      end
  end.

(** A response that stops for tool use carries at least one tool-use
    block. *)
Definition requests_a_tool (e : Event) : bool :=
  match e with
  | ModelCall _ (Ok r) =>
      negb (stop_reason r =? "tool_use")%string
      || nonempty (tool_uses (content r))
  | _ => true
  end.

(** ** Concrete runs, after the test suite *)

Module Runs.

Import Fixtures.

(** [test_generate_response_returns_text_when_no_tool_use] *)
Definition direct_run : Run ScriptedClient MockToolManager string :=
  AIGenerator.generate_response generator "What is 2+2?" None None None 2
    (world [mock_text_response] "").

(** [test_messages_accumulate_across_rounds] *)
Definition two_round_run : Run ScriptedClient MockToolManager string :=
  AIGenerator.generate_response generator "Multi-step query" None
    (Some search_schema) (Some AIGenerator.the_tool_manager) 2
    (world [mock_tool_use_response; mock_second_tool_use_response;
            mock_final_response] "Tool output").

Definition third_call : ApiParams :=
  nth 2 (model_calls (trace two_round_run))
    (initial_params generator "" None None).

(** [test_generate_response_handles_multiple_tool_calls], from the tool
    chain on. *)
Definition multi_tool_run : Run ScriptedClient MockToolManager string :=
  AIGenerator._process_tool_chain generator mock_multi_tool_response
    [ {| role := "user"; msg_content := ContentText "Complex query" |} ]
    AIGenerator.SYSTEM_PROMPT search_schema
    (Some AIGenerator.the_tool_manager) 1 2
    (world [mock_final_response] "Tool result").

(** A query with tools and a manager but a round limit of zero. *)
Definition zero_rounds_run : Run ScriptedClient MockToolManager string :=
  AIGenerator.generate_response generator "Search query" None
    (Some search_schema) (Some AIGenerator.the_tool_manager) 0
    (world [mock_tool_use_response; mock_final_response] "Search results").

(** A tool-use response received without a tool manager. *)
Definition unmanaged_run : Run ScriptedClient MockToolManager string :=
  AIGenerator.generate_response generator "Query" None
    (Some search_schema) None 2
    (world [text_then_tool_response] "").

(** The same, the text coming after the tool-use block. *)
Definition unmanaged_text_last_run
    : Run ScriptedClient MockToolManager string :=
  AIGenerator.generate_response generator "Query" None
    (Some search_schema) None 2
    (world [tool_then_text_response] "").

End Runs.

(** ** Further vocabulary: failures, responses received, growth *)

(** The exception of an external call that failed. *)
Definition failure (ev : Event) : option exn :=
  match ev with
  | ModelCall _ (Raise e) => Some e
  | ToolExec _ _ (Raise e) => Some e
  | _ => None
  end.

(** The first failed external call of a trace: its exception and the
    events issued after it. *)
Fixpoint first_failure (tr : list Event) : option (exn * list Event) :=
  match tr with
  | [] => None
  | ev :: tr' =>
      match failure ev with
      | Some e => Some (e, tr')
      | None => first_failure tr'
      end
  end.

(** The responses the model calls of a trace returned, in order. *)
Fixpoint ok_responses (tr : list Event) : list Response :=
  match tr with
  | [] => []
  | ModelCall _ (Ok r) :: tr' => r :: ok_responses tr'
  | _ :: tr' => ok_responses tr'
  end.

(** The executions a response asks for: name and arguments of each of its
    tool-use blocks, in order. *)
Definition requested_calls (r : Response) : list (string * kwargs) :=
  map (fun u => match u with (_, name, input) => (name, input) end)
    (tool_uses (content r)).


(** [b] is [a] with messages appended. *)
Definition extends (a b : list Message) : Prop :=
  exists suffix, b = a ++ suffix.

(** A tool manager whose [execute_tool] always raises [raised]. *)
Record RaisingToolManager : Type := mkRaisingToolManager { raised : exn }.

#[export] Instance RaisingToolManager_executor
    : ToolExecutor RaisingToolManager :=
  fun _ _ m => (Raise (raised m), m).

Module MoreRuns.

Import Fixtures.

(** A response that stops for tool use without any tool-use block. *)
Definition tool_use_without_block_response : Response :=
  {| content := [TextBlock "I will look that up."];
     stop_reason := "tool_use" |}.

(** The tool chain entered on such a response. *)
Definition no_block_run : Run ScriptedClient MockToolManager string :=
  AIGenerator._process_tool_chain generator tool_use_without_block_response
    [ {| role := "user"; msg_content := ContentText "Query" |} ]
    AIGenerator.SYSTEM_PROMPT search_schema
    (Some AIGenerator.the_tool_manager) 1 2
    (world [mock_final_response] "unused").

(** The tool chain entered without a tool manager. *)
Definition chain_without_manager_run
    : Run ScriptedClient MockToolManager string :=
  AIGenerator._process_tool_chain generator mock_tool_use_response
    [ {| role := "user"; msg_content := ContentText "Query" |} ]
    AIGenerator.SYSTEM_PROMPT search_schema None 1 2
    (world [mock_final_response] "unused").

(** A response that ends the turn with no content block at all. *)
Definition empty_response : Response :=
  {| content := []; stop_reason := "end_turn" |}.

(** A query answered by such a response. *)
Definition empty_response_run : Run ScriptedClient MockToolManager string :=
  AIGenerator.generate_response generator "What is 2+2?" None None None 2
    (world [empty_response] "").

(** The second model call fails in transport. *)
Definition transport_failure_run
    : Run ScriptedClient MockToolManager string :=
  AIGenerator.generate_response generator "Query" None
    (Some search_schema) (Some AIGenerator.the_tool_manager) 2
    {| client := [Ok mock_tool_use_response; Raise (APIError "overloaded");
                  Ok mock_final_response];
       manager := {| return_value := "Tool output" |} |}.

(** The first of two requested tools fails. *)
Definition tool_failure_run : Run ScriptedClient RaisingToolManager string :=
  AIGenerator.generate_response generator "Query" None
    (Some search_schema) (Some AIGenerator.the_tool_manager) 2
    {| client := [Ok mock_multi_tool_response; Ok mock_final_response];
       manager := {| raised := ValueError "search failed" |} |}.

End MoreRuns.

(** ** Basic facts on traces and the monad *)

Lemma model_calls_app (t1 t2 : list Event) :
  model_calls (t1 ++ t2) = model_calls t1 ++ model_calls t2.
Proof.
  induction t1 as [|e t1 IH]; simpl; [reflexivity|].
  destruct e; simpl; now rewrite IH.
Qed.

Lemma tool_execs_app (t1 t2 : list Event) :
  tool_execs (t1 ++ t2) = tool_execs t1 ++ tool_execs t2.
Proof.
  induction t1 as [|e t1 IH]; simpl; [reflexivity|].
  destruct e; simpl; now rewrite IH.
Qed.

Lemma model_calls_exec_events uses outs :
  model_calls (exec_events uses outs) = [].
Proof.
  unfold exec_events.
  induction (combine uses outs) as [|[[[i n] a] o] l IH]; simpl; auto.
Qed.

(** The first model call of a trace is determined. *)
Lemma first_model_call_unique (pre pre' rest rest' : list Event) p p' r r' :
  pre ++ ModelCall p r :: rest = pre' ++ ModelCall p' r' :: rest' ->
  model_calls pre = [] -> model_calls pre' = [] ->
  pre = pre' /\ p = p' /\ r = r' /\ rest = rest'.
Proof.
  revert pre'.
  induction pre as [|e pre IH]; intros [|e' pre'] Heq Hp Hp'; simpl in *.
  - inversion Heq; subst; auto.
  - inversion Heq; subst. simpl in Hp'. discriminate.
  - inversion Heq; subst. simpl in Hp. discriminate.
  - inversion Heq; subst.
    assert (model_calls pre = []) by (destruct e'; [discriminate | assumption]).
    assert (model_calls pre' = []) by (destruct e'; [discriminate | assumption]).
    destruct (IH pre' H1) as (-> & -> & -> & ->); auto.
Qed.

Section Protocol.

Context {C T : Type} `{LLMClient C} `{ToolExecutor T}.

Import AIGenerator.

Lemma messages_create_run (params : ApiParams) (w : World C T) :
  exists r c',
    client_messages_create params (client w) = (r, c') /\
    messages_create params w =
      (r, {| client := c'; manager := manager w |}, [ModelCall params r]).
Proof.
  unfold messages_create.
  destruct (client_messages_create params (client w)) as [r c'].
  now exists r, c'.
Qed.

(** The tool loop issues tool executions only; when it completes, every
    request was executed once, in order, and the accumulator grew by one
    result per request. *)
Lemma execute_tool_calls_run tool_manager blocks :
  forall acc (w : World C T),
    let run := execute_tool_calls tool_manager blocks acc w in
    model_calls (trace run) = [] /\
    client (final run) = client w /\
    forall results, outcome run = Ok results ->
      exists outs,
        List.length outs = List.length (tool_uses blocks) /\
        trace run = exec_events (tool_uses blocks) outs /\
        results = acc ++ tool_results_of (tool_uses blocks) outs.
Proof.
  induction blocks as [|b blocks IH]; intros acc w; simpl.
  - repeat split; auto. intros results [= <-]. exists []. simpl.
    now rewrite app_nil_r.
  - destruct b as [s | id name input].
    + apply IH.
    + unfold bind, execute_tool.
      destruct tool_manager as [ref|]; simpl.
      * destruct (manager_execute_tool name input (manager w)) as [[out|e] t'].
        -- specialize (IH (acc ++ [ {| tr_type := "tool_result";
                                        tool_use_id := id;
                                        tr_content := out |} ])
                          {| client := client w; manager := t' |}).
           simpl in IH.
           destruct (execute_tool_calls (Some ref) blocks _ _)
             as [[res w2] t2].
           unfold trace, final, outcome in *; simpl in *.
           destruct IH as (Hcalls & Hclient & Hres).
           repeat split; auto.
           intros results ->.
           destruct (Hres results eq_refl) as (outs & Hlen & Htr & Hacc).
           exists (out :: outs). simpl. repeat split.
           ++ now rewrite Hlen.
           ++ now rewrite Htr.
           ++ rewrite Hacc, <- app_assoc. reflexivity.
        -- unfold trace, final, outcome; simpl. repeat split; auto.
           intros results [=].
      * unfold raise, trace, final, outcome; simpl. repeat split; auto.
        intros results [=].
Qed.

(** One round of [_process_tool_chain]: the tool loop, the model call, and
    either the answer or the next round. *)
Lemma chain_step n self response messages system_content tools tool_manager
    current_round max_rounds (w : World C T) res w1 t1 :
  execute_tool_calls tool_manager (content response) [] w = (res, w1, t1) ->
  match res with
  | Raise e =>
      process_tool_chain_rec n self response messages system_content tools
        tool_manager current_round max_rounds w = (Raise e, w1, t1)
  | Ok results =>
      let messages' := round_messages messages response results in
      let p := round_params self messages' system_content tools
                 current_round max_rounds in
      forall r c', client_messages_create p (client w1) = (r, c') ->
      let w2 := {| client := c'; manager := manager w1 |} in
      process_tool_chain_rec n self response messages system_content tools
        tool_manager current_round max_rounds w =
      match r with
      | Raise e => (Raise e, w2, t1 ++ [ModelCall p r])
      | Ok next_response =>
          if another_round next_response current_round max_rounds
          then
            match n with
            | S n' =>
                let run' :=
                  process_tool_chain_rec n' self next_response messages'
                    system_content tools tool_manager
                    (current_round + 1) max_rounds w2 in
                (outcome run', final run',
                 t1 ++ ModelCall p r :: trace run')
            | O => (Raise RecursionError, w2, t1 ++ [ModelCall p r])
            end
          else (first_block_text next_response, w2, t1 ++ [ModelCall p r])
      end
  end.
Proof.
  intros Hloop.
  destruct n as [|n']; simpl; unfold bind; rewrite Hloop;
    (destruct res as [results|e]; [|reflexivity]);
    intros r c' Hcall; unfold messages_create;
    fold (round_messages messages response results);
    fold (round_params self (round_messages messages response results)
            system_content tools current_round max_rounds);
    rewrite Hcall;
    (destruct r as [next_response|e]; [|reflexivity]);
    fold (another_round next_response current_round max_rounds);
    destruct (another_round next_response current_round max_rounds);
    try reflexivity.
  unfold outcome, final, trace.
  destruct (process_tool_chain_rec n' self next_response _ _ _ _ _ _ _)
    as [[r2 w3] t3].
  reflexivity.
Qed.

(** Induction along the rounds of [_process_tool_chain]: a property of
    its runs follows from the five ways a round can end. *)
Section ChainInduction.

Variables (self : AIGenerator.t) (system_content : string)
  (tools : list ToolDefinition) (tool_manager : option ToolManagerRef)
  (max_rounds : Z).

Variable P :
  nat -> Response -> list Message -> Z -> World C T -> Run C T string -> Prop.

Hypothesis P_tool_raises :
  forall n response messages current_round w e w1 t1,
    execute_tool_calls tool_manager (content response) [] w
      = (Raise e, w1, t1) ->
    P n response messages current_round w (Raise e, w1, t1).

Hypothesis P_model_raises :
  forall n response messages current_round w results w1 t1 e c',
    execute_tool_calls tool_manager (content response) [] w
      = (Ok results, w1, t1) ->
    let p := round_params self (round_messages messages response results)
               system_content tools current_round max_rounds in
    client_messages_create p (client w1) = (Raise e, c') ->
    P n response messages current_round w
      (Raise e, {| client := c'; manager := manager w1 |},
       t1 ++ [ModelCall p (Raise e)]).

Hypothesis P_answer :
  forall n response messages current_round w results w1 t1 next_response c',
    execute_tool_calls tool_manager (content response) [] w
      = (Ok results, w1, t1) ->
    let p := round_params self (round_messages messages response results)
               system_content tools current_round max_rounds in
    client_messages_create p (client w1) = (Ok next_response, c') ->
    another_round next_response current_round max_rounds = false ->
    P n response messages current_round w
      (first_block_text next_response,
       {| client := c'; manager := manager w1 |},
       t1 ++ [ModelCall p (Ok next_response)]).

Hypothesis P_next_round :
  forall n response messages current_round w results w1 t1 next_response c',
    execute_tool_calls tool_manager (content response) [] w
      = (Ok results, w1, t1) ->
    let messages' := round_messages messages response results in
    let p := round_params self messages' system_content tools
               current_round max_rounds in
    client_messages_create p (client w1) = (Ok next_response, c') ->
    another_round next_response current_round max_rounds = true ->
    let w2 := {| client := c'; manager := manager w1 |} in
    forall run',
      P n next_response messages' (current_round + 1) w2 run' ->
      P (S n) response messages current_round w
        (outcome run', final run',
         t1 ++ ModelCall p (Ok next_response) :: trace run').

Hypothesis P_no_round_left :
  forall response messages current_round w results w1 t1 next_response c',
    execute_tool_calls tool_manager (content response) [] w
      = (Ok results, w1, t1) ->
    let p := round_params self (round_messages messages response results)
               system_content tools current_round max_rounds in
    client_messages_create p (client w1) = (Ok next_response, c') ->
    another_round next_response current_round max_rounds = true ->
    P O response messages current_round w
      (Raise RecursionError, {| client := c'; manager := manager w1 |},
       t1 ++ [ModelCall p (Ok next_response)]).

Ltac round_cases k response messages current_round w :=
  let Hloop := fresh "Hloop" in
  let Hstep := fresh "Hstep" in
  let Hcall := fresh "Hcall" in
  let Hmore := fresh "Hmore" in
  destruct (execute_tool_calls tool_manager (content response) [] w)
    as [[[results|e] w1] t1] eqn:Hloop;
  pose proof (chain_step k self response messages system_content tools
                tool_manager current_round max_rounds w _ _ _ Hloop) as Hstep;
  [|rewrite Hstep; now apply P_tool_raises];
  cbv zeta in Hstep;
  destruct (client_messages_create
              (round_params self (round_messages messages response results)
                 system_content tools current_round max_rounds)
              (client w1)) as [[next_response|e] c'] eqn:Hcall;
  rewrite (Hstep _ c' Hcall);
  [|now apply P_model_raises];
  destruct (another_round next_response current_round max_rounds) eqn:Hmore;
  [|now apply P_answer].

Lemma chain_rec_ind n :
  forall response messages current_round w,
    P n response messages current_round w
      (process_tool_chain_rec n self response messages system_content tools
         tool_manager current_round max_rounds w).
Proof.
  induction n as [|n IH]; intros response messages current_round w.
  - round_cases O response messages current_round w.
    now apply P_no_round_left.
  - round_cases (S n) response messages current_round w.
    eapply P_next_round; eauto.
Qed.

End ChainInduction.

Lemma tool_loop_no_model_call tool_manager blocks acc (w : World C T)
    res w1 t1 :
  execute_tool_calls tool_manager blocks acc w = (res, w1, t1) ->
  model_calls t1 = [].
Proof.
  intros Hloop.
  pose proof (execute_tool_calls_run tool_manager blocks acc w) as Hrun.
  cbv zeta in Hrun. rewrite Hloop in Hrun. apply Hrun.
Qed.

Lemma tool_loop_completes tool_manager blocks acc (w : World C T)
    results w1 t1 :
  execute_tool_calls tool_manager blocks acc w = (Ok results, w1, t1) ->
  exists outs,
    List.length outs = List.length (tool_uses blocks) /\
    t1 = exec_events (tool_uses blocks) outs /\
    results = acc ++ tool_results_of (tool_uses blocks) outs.
Proof.
  intros Hloop.
  pose proof (execute_tool_calls_run tool_manager blocks acc w) as Hrun.
  cbv zeta in Hrun. rewrite Hloop in Hrun.
  destruct Hrun as (_ & _ & Hres). now apply Hres.
Qed.

(** The rounds left always suffice: [_process_tool_chain] satisfies the
    recursion equation of the source. *)
Lemma _process_tool_chain_step self response messages system_content tools
    tool_manager current_round max_rounds (w : World C T) results w1 t1
    next_response c' :
  execute_tool_calls tool_manager (content response) [] w
    = (Ok results, w1, t1) ->
  let messages' := round_messages messages response results in
  let p := round_params self messages' system_content tools
             current_round max_rounds in
  client_messages_create p (client w1) = (Ok next_response, c') ->
  let w2 := {| client := c'; manager := manager w1 |} in
  _process_tool_chain self response messages system_content tools
    tool_manager current_round max_rounds w =
  if another_round next_response current_round max_rounds
  then
    let run' :=
      _process_tool_chain self next_response messages' system_content tools
        tool_manager (current_round + 1) max_rounds w2 in
    (outcome run', final run', t1 ++ ModelCall p (Ok next_response) :: trace run')
  else
    (first_block_text next_response, w2, t1 ++ [ModelCall p (Ok next_response)]).
Proof.
  intros Hloop messages' p Hcall w2. unfold _process_tool_chain.
  pose proof (chain_step (Z.to_nat (max_rounds - current_round)) self response
                messages system_content tools tool_manager current_round
                max_rounds w _ _ _ Hloop) as Hstep.
  cbv zeta in Hstep. rewrite (Hstep _ _ Hcall).
  destruct (another_round next_response current_round max_rounds) eqn:Hmore;
    [|reflexivity].
  unfold another_round in Hmore.
  apply andb_true_iff in Hmore. destruct Hmore as [_ Hlt].
  apply Z.ltb_lt in Hlt.
  replace (Z.to_nat (max_rounds - current_round))
    with (S (Z.to_nat (max_rounds - (current_round + 1)))) by lia.
  reflexivity.
Qed.

(** The first call of [generate_response] and what follows it. *)
Lemma generate_response_step self query conversation_history tools
    tool_manager max_rounds (w : World C T) r c' :
  let p := initial_params self query conversation_history tools in
  client_messages_create p (client w) = (r, c') ->
  let w1 := {| client := c'; manager := manager w |} in
  generate_response self query conversation_history tools tool_manager
    max_rounds w =
  match r with
  | Raise e => (Raise e, w1, [ModelCall p r])
  | Ok response =>
      if enters_chain response tool_manager tools
      then
        let run' :=
          _process_tool_chain self response (p_messages p)
            (system_content_of conversation_history)
            (match tools with Some l => l | None => [] end)
            tool_manager 1 max_rounds w1 in
        (outcome run', final run', ModelCall p r :: trace run')
      else (first_block_text response, w1, [ModelCall p r])
  end.
Proof.
  intros p Hcall w1.
  unfold generate_response, bind, messages_create.
  fold (initial_params self query conversation_history tools). fold p.
  rewrite Hcall.
  destruct r as [response|e]; [|reflexivity].
  fold (enters_chain response tool_manager tools).
  destruct (enters_chain response tool_manager tools) eqn:Henter;
    [|reflexivity].
  destruct tools as [l|].
  - unfold outcome, final, trace.
    destruct (_process_tool_chain self response _ _ _ _ _ _ _) as [[r2 w3] t3].
    reflexivity.
  - unfold enters_chain in Henter. simpl in Henter.
    rewrite andb_false_r in Henter. discriminate.
Qed.

Lemma nth_error_singleton {A : Type} (x y : A) j :
  nth_error [x] j = Some y -> j = O /\ y = x.
Proof.
  destruct j as [|[|j]]; simpl; intros [=]; auto.
Qed.

(** The model calls of the chain entered at round [current_round]: at most
    one per round left plus one, the [j]-th of them closing round
    [current_round + j] and carrying the tool schemas exactly while that
    round is below the limit. *)
Lemma chain_model_calls self system_content tools tool_manager max_rounds n :
  forall response messages current_round (w : World C T),
    let calls :=
      model_calls
        (trace (process_tool_chain_rec n self response messages
                  system_content tools tool_manager current_round
                  max_rounds w)) in
    (List.length calls <= S n)%nat /\
    forall j p, nth_error calls j = Some p ->
      p_tools p =
        (if current_round + Z.of_nat j <? max_rounds
         then Some tools else None) /\
      p_tool_choice p =
        (if current_round + Z.of_nat j <? max_rounds
         then Some {| choice_type := "auto" |} else None).
Proof.
  apply (chain_rec_ind self system_content tools tool_manager max_rounds
    (fun n response messages current_round w run =>
       let calls := model_calls (trace run) in
       (List.length calls <= S n)%nat /\
       forall j p, nth_error calls j = Some p ->
         p_tools p =
           (if current_round + Z.of_nat j <? max_rounds
            then Some tools else None) /\
         p_tool_choice p =
           (if current_round + Z.of_nat j <? max_rounds
            then Some {| choice_type := "auto" |} else None)));
    clear n; unfold trace; simpl.
  - intros n response messages c w e w1 t1 Hloop.
    rewrite (tool_loop_no_model_call _ _ _ _ _ _ _ Hloop). simpl.
    split; [lia|]. intros [|j] p; discriminate.
  - intros n response messages c w results w1 t1 e c' Hloop Hcall.
    rewrite model_calls_app, (tool_loop_no_model_call _ _ _ _ _ _ _ Hloop).
    simpl. split; [lia|].
    intros j p Hn. apply nth_error_singleton in Hn. destruct Hn as [-> ->].
    rewrite Z.add_0_r. split; reflexivity.
  - intros n response messages c w results w1 t1 next c' Hloop Hcall Hmore.
    rewrite model_calls_app, (tool_loop_no_model_call _ _ _ _ _ _ _ Hloop).
    simpl. split; [lia|].
    intros j p Hn. apply nth_error_singleton in Hn. destruct Hn as [-> ->].
    rewrite Z.add_0_r. split; reflexivity.
  - intros n response messages c w results w1 t1 next c' Hloop Hcall Hmore
      run' [Hlen Hnth].
    rewrite model_calls_app, (tool_loop_no_model_call _ _ _ _ _ _ _ Hloop).
    simpl. split; [lia|].
    intros [|j] p Hn; simpl in Hn.
    + injection Hn as <-. rewrite Z.add_0_r. split; reflexivity.
    + destruct (Hnth j p Hn) as [Ht Hc].
      replace (c + Z.of_nat (S j)) with (c + 1 + Z.of_nat j) by lia.
      now split.
  - intros response messages c w results w1 t1 next c' Hloop Hcall Hmore.
    rewrite model_calls_app, (tool_loop_no_model_call _ _ _ _ _ _ _ Hloop).
    simpl. split; [lia|].
    intros j p Hn. apply nth_error_singleton in Hn. destruct Hn as [-> ->].
    rewrite Z.add_0_r. split; reflexivity.
Qed.

Lemma tool_results_nonempty uses outs :
  List.length outs = List.length uses -> nonempty uses = true ->
  nonempty (tool_results_of uses outs) = true.
Proof.
  destruct uses as [|[[i n] a] uses]; [discriminate|].
  destruct outs as [|o outs]; [discriminate|]. reflexivity.
Qed.

(** After a round whose response requested a tool, the conversation has
    grown by an assistant turn and a user turn. *)
Lemma round_messages_roles tool_manager response messages (w : World C T)
    results w1 t1 :
  nonempty (tool_uses (content response)) = true ->
  execute_tool_calls tool_manager (content response) [] w
    = (Ok results, w1, t1) ->
  map role (round_messages messages response results)
    = map role messages ++ ["assistant"; "user"].
Proof.
  intros Huses Hloop.
  destruct (tool_loop_completes _ _ _ _ _ _ _ Hloop) as (outs & Hlen & _ & ->).
  unfold round_messages. simpl.
  rewrite (tool_results_nonempty _ _ Hlen Huses).
  rewrite !map_app, <- app_assoc. reflexivity.
Qed.

Lemma another_round_tool_use next current_round max_rounds :
  another_round next current_round max_rounds = true ->
  stop_reason next = "tool_use".
Proof.
  unfold another_round. intros Hmore.
  apply andb_true_iff in Hmore. destruct Hmore as [Hmore _].
  apply andb_true_iff in Hmore. destruct Hmore as [Hstop _].
  now apply String.eqb_eq.
Qed.

Lemma requests_a_tool_uses p r :
  requests_a_tool (ModelCall p (Ok r)) = true ->
  stop_reason r = "tool_use" ->
  nonempty (tool_uses (content r)) = true.
Proof.
  simpl. intros Hreq Hstop. rewrite Hstop in Hreq. exact Hreq.
Qed.

(** The conversation sent by the [j]-th model call of the chain has grown
    by [j + 1] rounds, provided every tool-use response requested a tool. *)
Lemma chain_roles self system_content tools tool_manager max_rounds n :
  forall response messages current_round (w : World C T),
    let run :=
      process_tool_chain_rec n self response messages system_content tools
        tool_manager current_round max_rounds w in
    nonempty (tool_uses (content response)) = true ->
    forallb requests_a_tool (trace run) = true ->
    forall j p, nth_error (model_calls (trace run)) j = Some p ->
      map role (p_messages p) = map role messages ++ roles_after (S j).
Proof.
  apply (chain_rec_ind self system_content tools tool_manager max_rounds
    (fun n response messages current_round w run =>
       nonempty (tool_uses (content response)) = true ->
       forallb requests_a_tool (trace run) = true ->
       forall j p, nth_error (model_calls (trace run)) j = Some p ->
         map role (p_messages p) = map role messages ++ roles_after (S j)));
    clear n; unfold trace; simpl.
  - intros n response messages c w e w1 t1 Hloop _ _.
    rewrite (tool_loop_no_model_call _ _ _ _ _ _ _ Hloop).
    intros [|j] p; discriminate.
  - intros n response messages c w results w1 t1 e c' Hloop Hcall Huses _.
    rewrite model_calls_app, (tool_loop_no_model_call _ _ _ _ _ _ _ Hloop).
    intros j p Hn. apply nth_error_singleton in Hn. destruct Hn as [-> ->].
    simpl. now apply (round_messages_roles tool_manager _ _ w _ w1 t1).
  - intros n response messages c w results w1 t1 next c' Hloop Hcall Hmore
      Huses _.
    rewrite model_calls_app, (tool_loop_no_model_call _ _ _ _ _ _ _ Hloop).
    intros j p Hn. apply nth_error_singleton in Hn. destruct Hn as [-> ->].
    simpl. now apply (round_messages_roles tool_manager _ _ w _ w1 t1).
  - intros n response messages c w results w1 t1 next c' Hloop Hcall Hmore
      run' IH Huses Hall.
    rewrite forallb_app in Hall. apply andb_true_iff in Hall.
    destruct Hall as [_ Hall]. cbn [forallb] in Hall.
    apply andb_true_iff in Hall. destruct Hall as [Hnext Hall].
    rewrite model_calls_app, (tool_loop_no_model_call _ _ _ _ _ _ _ Hloop).
    pose proof (round_messages_roles tool_manager _ messages w _ w1 t1
                  Huses Hloop) as Hroles.
    intros [|j] p Hn; simpl in Hn.
    + injection Hn as <-. exact Hroles.
    + rewrite (IH (requests_a_tool_uses _ _ Hnext
                     (another_round_tool_use _ _ _ Hmore)) Hall j p Hn).
      rewrite Hroles, <- app_assoc. reflexivity.
  - intros response messages c w results w1 t1 next c' Hloop Hcall Hmore
      Huses _.
    rewrite model_calls_app, (tool_loop_no_model_call _ _ _ _ _ _ _ Hloop).
    intros j p Hn. apply nth_error_singleton in Hn. destruct Hn as [-> ->].
    simpl. now apply (round_messages_roles tool_manager _ _ w _ w1 t1).
Qed.

Lemma roles_after_alternate k :
  alternates_from "assistant" (roles_after k) = true.
Proof.
  induction k as [|k IH]; simpl; auto.
Qed.

Lemma roles_after_last k : last ("user" :: roles_after k) "" = "user".
Proof.
  induction k as [|k IH]; [reflexivity|].
  cbn [roles_after].
  change (last ("user" :: "assistant" :: "user" :: roles_after k) "")
    with (last ("user" :: roles_after k) "").
  exact IH.
Qed.

Lemma roles_after_length k : List.length (roles_after k) = (2 * k)%nat.
Proof.
  induction k as [|k IH]; simpl; [reflexivity|]. rewrite IH. lia.
Qed.

(** A run that returns a value returns the text of the first block of the
    response to its last model call, and that block is a text block. *)
Lemma chain_answer self system_content tools tool_manager max_rounds n :
  forall response messages current_round (w : World C T),
    let run :=
      process_tool_chain_rec n self response messages system_content tools
        tool_manager current_round max_rounds w in
    forall v, outcome run = Ok v ->
      exists pre p r blocks,
        trace run = pre ++ [ModelCall p (Ok r)] /\
        content r = TextBlock v :: blocks.
Proof.
  apply (chain_rec_ind self system_content tools tool_manager max_rounds
    (fun n response messages current_round w run =>
       forall v, outcome run = Ok v ->
         exists pre p r blocks,
           trace run = pre ++ [ModelCall p (Ok r)] /\
           content r = TextBlock v :: blocks));
    clear n; unfold trace, outcome; simpl; try discriminate.
  - intros n response messages c w results w1 t1 next c' Hloop Hcall Hmore
      v Hv.
    unfold first_block_text in Hv.
    destruct (content next) as [|[s|i nm a] blocks] eqn:Hc;
      try discriminate.
    injection Hv as ->.
    eexists t1, _, next, blocks. split; [reflexivity|assumption].
  - intros n response messages c w results w1 t1 next c' Hloop Hcall Hmore
      run' IH v Hv.
    destruct (IH v Hv) as (pre & p & r & blocks & Htr & Hc).
    exists (t1 ++ ModelCall
                    (round_params self (round_messages messages response results)
                       system_content tools c max_rounds) (Ok next) :: pre),
      p, r, blocks.
    split; [|assumption].
    rewrite Htr, <- app_assoc. reflexivity.
Qed.

Lemma split_at_model_call_none (tr : list Event) :
  model_calls tr = [] -> split_at_model_call tr = None.
Proof.
  induction tr as [|e tr IH]; [reflexivity|].
  destruct e; simpl; [discriminate|].
  intros Htr. now rewrite (IH Htr).
Qed.

Lemma split_at_model_call_app (pre rest : list Event) p r :
  model_calls pre = [] ->
  split_at_model_call (pre ++ ModelCall p r :: rest) = Some (pre, p).
Proof.
  induction pre as [|e pre IH]; [reflexivity|].
  destruct e; simpl; [discriminate|].
  intros Hpre. now rewrite (IH Hpre).
Qed.

Lemma enters_chain_tool_use response tool_manager tools :
  enters_chain response tool_manager tools = true ->
  stop_reason response = "tool_use" /\
  tool_manager <> None /\ truthy_list tools = true.
Proof.
  unfold enters_chain. intros Henter.
  apply andb_true_iff in Henter. destruct Henter as [Henter Htools].
  apply andb_true_iff in Henter. destruct Henter as [Hstop Hmgr].
  repeat split; auto.
  - now apply String.eqb_eq.
  - destruct tool_manager; [discriminate|discriminate].
Qed.

Lemma truthy_list_Some {A : Type} (tools : option (list A)) :
  truthy_list tools = true ->
  tools = Some (match tools with Some l => l | None => [] end).
Proof.
  destruct tools as [[|x l]|]; simpl; intros Ht;
    try discriminate; reflexivity.
Qed.

(** ** The properties of the protocol *)

(** C1: for every limit [R >= 1] and whatever the model answers,
    [generate_response] makes at most [R + 1] model calls, and the call
    number [R + 1], when it is made, carries neither tool schemas nor a
    tool choice. *)
Theorem generate_response_call_bound (self : AIGenerator.t) (query : string)
    (conversation_history : option string)
    (tools : option (list ToolDefinition))
    (tool_manager : option ToolManagerRef) (R : Z) (w : World C T) :
  1 <= R ->
  let calls :=
    model_calls
      (trace (generate_response self query conversation_history tools
                tool_manager R w)) in
  Z.of_nat (List.length calls) <= R + 1 /\
  match nth_error calls (Z.to_nat R) with
  | Some p => p_tools p = None /\ p_tool_choice p = None
  | None => True
  end.
Proof.
  intros HR.
  destruct (client_messages_create
              (initial_params self query conversation_history tools)
              (client w)) as [r c'] eqn:Hcall.
  rewrite (generate_response_step self query conversation_history tools
             tool_manager R w r c' Hcall).
  assert (Hone : forall p0 : ApiParams,
             Z.of_nat (List.length [p0]) <= R + 1 /\
             match nth_error [p0] (Z.to_nat R) with
             | Some p => p_tools p = None /\ p_tool_choice p = None
             | None => True
             end).
  { intros p0. split; [simpl; lia|].
    destruct (Z.to_nat R) as [|[|k]] eqn:HRn; simpl; auto. lia. }
  destruct r as [response|e]; [|apply Hone].
  destruct (enters_chain response tool_manager tools); [|apply Hone].
  cbv zeta. unfold trace at 1. simpl. unfold _process_tool_chain.
  match goal with
  | |- context [process_tool_chain_rec ?n ?s ?resp ?msgs ?sys ?tl ?tm ?c ?m ?w1] =>
      destruct (chain_model_calls s sys tl tm m n resp msgs c w1)
        as [Hlen Hnth]
  end.
  split; [lia|].
  replace (Z.to_nat R) with (S (Z.to_nat (R - 1))) by lia. simpl.
  match goal with
  | |- match nth_error ?l ?j with _ => _ end =>
      destruct (nth_error l j) as [p|] eqn:Hp; [|exact I]
  end.
  destruct (Hnth _ _ Hp) as [Ht Hc].
  replace (1 + Z.of_nat (Z.to_nat (R - 1)) <? R) with false in Ht, Hc
    by (symmetry; apply Z.ltb_ge; lia).
  now split.
Qed.

(** The tool schemas by call, as the code sends them: the first model
    call carries the tool schemas and the automatic tool choice whenever a
    non-empty tool list was supplied, the round limit playing no part;
    every later call, which closes tool round [k], carries them exactly
    when [k < max_rounds]. *)
Theorem tools_included_by_round (self : AIGenerator.t) (query : string)
    (conversation_history : option string)
    (tools : option (list ToolDefinition))
    (tool_manager : option ToolManagerRef) (max_rounds : Z) (w : World C T)
    (k : nat) (p : ApiParams) :
  nth_error
    (model_calls
       (trace (generate_response self query conversation_history tools
                 tool_manager max_rounds w))) k = Some p ->
  match k with
  | O =>
      p_tools p = (if truthy_list tools then tools else None) /\
      p_tool_choice p =
        (if truthy_list tools then Some {| choice_type := "auto" |} else None)
  | S _ =>
      p_tools p = (if Z.of_nat k <? max_rounds then tools else None) /\
      p_tool_choice p =
        (if Z.of_nat k <? max_rounds
         then Some {| choice_type := "auto" |} else None)
  end.
Proof.
  destruct (client_messages_create
              (initial_params self query conversation_history tools)
              (client w)) as [r c'] eqn:Hcall.
  rewrite (generate_response_step self query conversation_history tools
             tool_manager max_rounds w r c' Hcall).
  assert (Hone : forall r0,
             nth_error
               [initial_params self query conversation_history tools] k
               = Some r0 ->
             match k with
             | O =>
                 p_tools r0 = (if truthy_list tools then tools else None) /\
                 p_tool_choice r0 =
                   (if truthy_list tools
                    then Some {| choice_type := "auto" |} else None)
             | S _ =>
                 p_tools r0 =
                   (if Z.of_nat k <? max_rounds then tools else None) /\
                 p_tool_choice r0 =
                   (if Z.of_nat k <? max_rounds
                    then Some {| choice_type := "auto" |} else None)
             end).
  { intros r0 Hn. apply nth_error_singleton in Hn.
    destruct Hn as [-> ->]. split; reflexivity. }
  destruct r as [response|e]; [|apply Hone].
  destruct (enters_chain response tool_manager tools) eqn:Henter;
    [|apply Hone].
  cbv zeta. unfold trace at 1. simpl. unfold _process_tool_chain.
  destruct (enters_chain_tool_use _ _ _ Henter) as (_ & _ & Htools).
  destruct k as [|j]; simpl.
  - intros [= <-]. split; reflexivity.
  - intros Hp.
    match type of Hp with
    | context [process_tool_chain_rec ?n ?s ?resp ?msgs ?sys ?tl ?tm ?c ?m ?w1] =>
        destruct (chain_model_calls s sys tl tm m n resp msgs c w1)
          as [_ Hnth]
    end.
    destruct (Hnth _ _ Hp) as [Ht Hc].
    replace (Z.pos (Pos.of_succ_nat j)) with (1 + Z.of_nat j) by lia.
    rewrite Ht, Hc.
    destruct (1 + Z.of_nat j <? max_rounds); split; try reflexivity.
    symmetry. now apply truthy_list_Some.
Qed.



(** What [generate_response] does when it does not enter the tool chain. *)
Lemma generate_response_direct self query conversation_history tools
    tool_manager max_rounds (w : World C T) p r rest :
  trace (generate_response self query conversation_history tools
           tool_manager max_rounds w) = ModelCall p (Ok r) :: rest ->
  enters_chain r tool_manager tools = false ->
  rest = [] /\
  outcome (generate_response self query conversation_history tools
             tool_manager max_rounds w) = first_block_text r.
Proof.
  destruct (client_messages_create
              (initial_params self query conversation_history tools)
              (client w)) as [r0 c'] eqn:Hcall.
  rewrite (generate_response_step self query conversation_history tools
             tool_manager max_rounds w r0 c' Hcall).
  destruct r0 as [response|e].
  - destruct (enters_chain response tool_manager tools) eqn:Henter.
    + cbv zeta. unfold trace at 1. simpl. intros [= _ <- _] Hno. congruence.
    + unfold trace, outcome. simpl. intros [= _ <- <-] _. auto.
  - unfold trace. simpl. intros [=].
Qed.

(** C4 (amended): when the first model response does not signal tool
    use, that model call is the only one and no tool is executed; the value
    returned is the text of the first content block of that response when
    that block is a text block, and otherwise nothing is returned: the
    lookup [content[0].text] raises [IndexError] on a response without a
    block and [AttributeError] on a first block without text. *)
Theorem direct_answer_single_call (self : AIGenerator.t) (query : string)
    (conversation_history : option string)
    (tools : option (list ToolDefinition))
    (tool_manager : option ToolManagerRef) (max_rounds : Z) (w : World C T)
    (p : ApiParams) (r : Response) (rest : list Event) :
  let run :=
    generate_response self query conversation_history tools tool_manager
      max_rounds w in
  trace run = ModelCall p (Ok r) :: rest ->
  stop_reason r <> "tool_use" ->
  model_calls (trace run) = [p] /\
  tool_execs (trace run) = [] /\
  outcome run =
    match content r with
    | [] => Raise IndexError
    | TextBlock s :: _ => Ok s
    | ToolUseBlock _ _ _ :: _ => Raise (AttributeError "text")
    end.
Proof.
  intros run Htr Hstop. subst run.
  assert (Hno : enters_chain r tool_manager tools = false).
  { unfold enters_chain.
    destruct (String.eqb_spec (stop_reason r) "tool_use");
      [contradiction|reflexivity]. }
  destruct (generate_response_direct _ _ _ _ _ _ _ _ _ _ Htr Hno)
    as [-> Hout].
  rewrite Htr, Hout. simpl. repeat split.
Qed.

(** C9: when the first model response stops for tool use but no tool
    manager or no tools were given, no tool is executed, no second model
    call is made, and the value returned is the [text] attribute of the
    first content block of that response. *)
Theorem tool_use_without_manager_or_tools (self : AIGenerator.t)
    (query : string) (conversation_history : option string)
    (tools : option (list ToolDefinition))
    (tool_manager : option ToolManagerRef) (max_rounds : Z) (w : World C T)
    (p : ApiParams) (r : Response) (rest : list Event) :
  let run :=
    generate_response self query conversation_history tools tool_manager
      max_rounds w in
  trace run = ModelCall p (Ok r) :: rest ->
  stop_reason r = "tool_use" ->
  tool_manager = None \/ truthy_list tools = false ->
  model_calls (trace run) = [p] /\
  tool_execs (trace run) = [] /\
  outcome run =
    match content r with
    | [] => Raise IndexError
    | content_block :: _ => text content_block
    end.
Proof.
  intros run Htr Hstop Hnone. subst run.
  assert (Hno : enters_chain r tool_manager tools = false).
  { unfold enters_chain. destruct Hnone as [-> | ->]; simpl.
    - now rewrite andb_false_r.
    - now rewrite andb_false_r. }
  destruct (generate_response_direct _ _ _ _ _ _ _ _ _ _ Htr Hno)
    as [-> Hout].
  rewrite Htr. simpl. auto.
Qed.

(** C5 (amended): a run of [generate_response] that returns a value ends
    with a model call, and the value is the text of the first content
    block of the response to that call, which is a text block. *)
Theorem answer_is_first_block_text (self : AIGenerator.t) (query : string)
    (conversation_history : option string)
    (tools : option (list ToolDefinition))
    (tool_manager : option ToolManagerRef) (max_rounds : Z) (w : World C T)
    (v : string) :
  let run :=
    generate_response self query conversation_history tools tool_manager
      max_rounds w in
  outcome run = Ok v ->
  exists pre p r blocks,
    trace run = pre ++ [ModelCall p (Ok r)] /\
    content r = TextBlock v :: blocks /\
    first_text_block (content r) = Some v.
Proof.
  intros run. subst run.
  destruct (client_messages_create
              (initial_params self query conversation_history tools)
              (client w)) as [r0 c'] eqn:Hcall.
  rewrite (generate_response_step self query conversation_history tools
             tool_manager max_rounds w r0 c' Hcall).
  destruct r0 as [response|e]; [|discriminate].
  destruct (enters_chain response tool_manager tools).
  - cbv zeta. unfold outcome at 1, trace at 1. simpl.
    unfold _process_tool_chain. intros Hv.
    apply chain_answer in Hv.
    destruct Hv as (pre & p & r & blocks & Htr & Hc).
    exists (ModelCall (initial_params self query conversation_history tools)
              (Ok response) :: pre), p, r, blocks.
    rewrite Htr, Hc. auto.
  - unfold outcome, trace. simpl. unfold first_block_text.
    destruct (content response) as [|[s|i nm a] blocks] eqn:Hc;
      try discriminate.
    intros [= ->].
    exists [], (initial_params self query conversation_history tools),
      response, blocks.
    rewrite Hc. auto.
Qed.

(** C6: the first model call of [generate_response] sends exactly one
    message, of role user, whose content is the raw query; the history,
    when there is one, goes into the system parameter only, after the
    system prompt. *)
Theorem first_call_messages_and_system (self : AIGenerator.t)
    (query : string) (conversation_history : option string)
    (tools : option (list ToolDefinition))
    (tool_manager : option ToolManagerRef) (max_rounds : Z) (w : World C T) :
  exists p r rest,
    trace (generate_response self query conversation_history tools
             tool_manager max_rounds w) = ModelCall p r :: rest /\
    p_messages p = [ {| role := "user"; msg_content := ContentText query |} ] /\
    p_system p =
      match conversation_history with
      | Some (String a h) =>
          (SYSTEM_PROMPT ++ "

Previous conversation:
" ++ String a h)%string
      | _ => SYSTEM_PROMPT
      end.
Proof.
  destruct (client_messages_create
              (initial_params self query conversation_history tools)
              (client w)) as [r0 c'] eqn:Hcall.
  rewrite (generate_response_step self query conversation_history tools
             tool_manager max_rounds w r0 c' Hcall).
  assert (Hsys : p_system (initial_params self query conversation_history tools)
                 = match conversation_history with
                   | Some (String a h) =>
                       (SYSTEM_PROMPT ++ "

Previous conversation:
" ++ String a h)%string
                   | _ => SYSTEM_PROMPT
                   end)
    by (destruct conversation_history as [[|a h]|]; reflexivity).
  destruct r0 as [response|e];
    [destruct (enters_chain response tool_manager tools)|];
    eexists _, _, _; (split; [reflexivity|]); split;
    solve [reflexivity | exact Hsys].
Qed.

(** C10: provided every response that stops for tool use holds at least
    one tool-use block, the message list sent by the model call made after
    [k] completed tool rounds has roles that alternate from user, ends
    with a user message and has exactly [2k + 1] messages. *)
Theorem messages_alternate (self : AIGenerator.t) (query : string)
    (conversation_history : option string)
    (tools : option (list ToolDefinition))
    (tool_manager : option ToolManagerRef) (max_rounds : Z) (w : World C T)
    (k : nat) (p : ApiParams) :
  let run :=
    generate_response self query conversation_history tools tool_manager
      max_rounds w in
  forallb requests_a_tool (trace run) = true ->
  nth_error (model_calls (trace run)) k = Some p ->
  alternates_from "user" (map role (p_messages p)) = true /\
  last (map role (p_messages p)) "" = "user" /\
  List.length (p_messages p) = (2 * k + 1)%nat.
Proof.
  intros run Hall Hp.
  assert (Hroles : map role (p_messages p) = "user" :: roles_after k).
  { subst run. revert Hall Hp.
    destruct (client_messages_create
                (initial_params self query conversation_history tools)
                (client w)) as [r0 c'] eqn:Hcall.
    rewrite (generate_response_step self query conversation_history tools
               tool_manager max_rounds w r0 c' Hcall).
    assert (Hone : nth_error
                     [initial_params self query conversation_history tools] k
                   = Some p ->
                   map role (p_messages p) = "user" :: roles_after k).
    { intros Hn. apply nth_error_singleton in Hn.
      destruct Hn as [-> ->]. reflexivity. }
    destruct r0 as [response|e]; [|intros _; exact Hone].
    destruct (enters_chain response tool_manager tools) eqn:Henter;
      [|intros _; exact Hone].
    cbv zeta. unfold trace at 1 2. simpl. unfold _process_tool_chain.
    intros Hall Hp. apply andb_true_iff in Hall. destruct Hall as [Hreq Hall].
    destruct (enters_chain_tool_use _ _ _ Henter) as (Hstop & _ & _).
    destruct k as [|j]; simpl in Hp.
    - injection Hp as <-. reflexivity.
    - rewrite (chain_roles _ _ _ _ _ _ _ _ _ _
                 (requests_a_tool_uses
                    (initial_params self query conversation_history tools)
                    response Hreq Hstop) Hall j p Hp).
      reflexivity. }
  rewrite <- (length_map role (p_messages p)), Hroles.
  split; [|split].
  - change (alternates_from "user" ("user" :: roles_after k))
      with (alternates_from "assistant" (roles_after k)).
    apply roles_after_alternate.
  - apply roles_after_last.
  - cbn [List.length]. rewrite roles_after_length. lia.
Qed.

End Protocol.

(** ** Concrete runs evaluated *)

Example two_round_run_calls :
  List.length (model_calls (trace Runs.two_round_run)) = 3%nat /\
  tool_execs (trace Runs.two_round_run) =
    [("search_course_content",
      [("query", VStr "MCP basics"); ("course_name", VStr "MCP")]);
     ("search_course_content",
      [("query", VStr "advanced topic");
       ("course_name", VStr "Advanced Course")])] /\
  outcome Runs.two_round_run =
    Ok "Based on the course content, here is your answer.".
Proof. vm_compute. repeat split. Qed.

Example third_call_messages :
  map role (p_messages Runs.third_call) =
    ["user"; "assistant"; "user"; "assistant"; "user"] /\
  p_tools Runs.third_call = None.
Proof. vm_compute. split; reflexivity. Qed.

Example zero_rounds_run_calls :
  List.length (model_calls (trace Runs.zero_rounds_run)) = 2%nat /\
  List.length (tool_execs (trace Runs.zero_rounds_run)) = 1%nat.
Proof. vm_compute. split; reflexivity. Qed.

Example unmanaged_run_outcome :
  outcome Runs.unmanaged_run = Ok "Let me search.".
Proof. vm_compute. reflexivity. Qed.

(** ** The tool registry *)

Section Registry.

Import SearchTools.

Lemma dict_get_set_same {A : Type} (key : string) (v : A) d :
  dict_get key (dict_set key v d) = Some v.
Proof.
  induction d as [|[k v0] d IH]; simpl.
  - now rewrite String.eqb_refl.
  - destruct (String.eqb_spec k key) as [->|Hk]; simpl.
    + now rewrite String.eqb_refl.
    + destruct (String.eqb_spec k key); [contradiction|exact IH].
Qed.

Lemma reset_sources_tools_empty (d : list (string * Tool)) :
  flat_map (fun kv => tool_sources (snd kv))
    (map (fun kv =>
            (fst kv,
             {| get_tool_definition := get_tool_definition (snd kv);
                tool_execute := tool_execute (snd kv);
                tool_sources := [] |})) d) = [].
Proof.
  induction d as [|kv d IH]; simpl; auto.
Qed.

(** C7: for a name that is not registered and any arguments,
    [execute_tool] does not raise: it returns a text, which contains the
    unknown name, and leaves the registry as it was. *)
Theorem execute_tool_unknown_name (self : ToolManager) (tool_name : string)
    (arguments : kwargs) :
  dict_get tool_name (tools self) = None ->
  exists text,
    execute_tool self tool_name arguments = (Ok text, self) /\
    contains text tool_name.
Proof.
  intros Habsent. unfold execute_tool. rewrite Habsent.
  eexists. split; [reflexivity|].
  now exists "Tool '", "' not found".
Qed.

(** C8: right after [reset_sources] the registry reports no source, and
    an [execute] of the search tool leaves it holding one source per hit
    of that search, whatever it held before. *)
Theorem sources_reset_and_replaced (self : ToolManager)
    (store : VectorStore) (held : list Source) (query : string)
    (course_name : option string) (lesson_number : option Z) :
  get_last_sources (reset_sources self) = [] /\
  last_sources
    (snd (execute {| store := store; last_sources := held |}
            query course_name lesson_number))
  = map (source_of_hit store)
      (hits_of (search store query course_name lesson_number)).
Proof.
  split.
  - apply reset_sources_tools_empty.
  - unfold execute. simpl.
    destruct (search store query course_name lesson_number) as [[|h hits]|e];
      reflexivity.
Qed.

End Registry.

(** ** The properties at the concrete runs *)

Lemma generate_response_call_bound_witness :
  1 <= 2 /\
  Z.of_nat (List.length (model_calls (trace Runs.two_round_run))) <= 2 + 1 /\
  match nth_error (model_calls (trace Runs.two_round_run)) (Z.to_nat 2) with
  | Some p => p_tools p = None /\ p_tool_choice p = None
  | None => True
  end.
Proof.
  split; [lia|].
  apply (generate_response_call_bound Fixtures.generator "Multi-step query"
           None (Some Fixtures.search_schema)
           (Some AIGenerator.the_tool_manager) 2). lia.
Defined.

Lemma tools_included_by_round_witness :
  nth_error (model_calls (trace Runs.two_round_run)) 2 = Some Runs.third_call /\
  p_tools Runs.third_call
    = (if Z.of_nat 2 <? 2 then Some Fixtures.search_schema else None) /\
  p_tool_choice Runs.third_call
    = (if Z.of_nat 2 <? 2 then Some {| choice_type := "auto" |} else None).
Proof.
  split; [vm_compute; reflexivity|].
  apply (tools_included_by_round Fixtures.generator "Multi-step query"
           None (Some Fixtures.search_schema)
           (Some AIGenerator.the_tool_manager) 2
           (Fixtures.world
              [Fixtures.mock_tool_use_response;
               Fixtures.mock_second_tool_use_response;
               Fixtures.mock_final_response] "Tool output")
           2%nat Runs.third_call).
  vm_compute; reflexivity.
Defined.

(** C2: the claim is not met by the code at a round limit of zero. The
    round counter is never below the limit, yet the first call carries the
    tool schemas and the automatic tool choice; the tool the model then
    asks for is executed, and a second model call follows, although
    [max_rounds] is documented as the maximum number of tool call rounds
    and the calls of [_process_tool_chain] are gated by
    [current_round < max_rounds]. *)
Lemma tools_sent_although_limit_is_zero :
  (0 <? 0) = false /\
  (exists p,
     nth_error (model_calls (trace Runs.zero_rounds_run)) 0 = Some p /\
     p_tools p = Some Fixtures.search_schema /\
     p_tool_choice p = Some {| choice_type := "auto" |}) /\
  tool_execs (trace Runs.zero_rounds_run)
    = [("search_course_content",
        [("query", VStr "MCP basics"); ("course_name", VStr "MCP")])] /\
  List.length (model_calls (trace Runs.zero_rounds_run)) = 2%nat.
Proof.
  split; [reflexivity|]. split.
  - eexists. split; [vm_compute; reflexivity|]. split; reflexivity.
  - vm_compute. split; reflexivity.
Qed.


(** The same round written out: two executions, then the model call with
    the two results in the order of the blocks. *)
Example multi_tool_run_trace :
  exists p r,
    trace Runs.multi_tool_run
    = [ToolExec "search_course_content" [("query", VStr "first topic")]
         (Ok "Tool result");
       ToolExec "get_course_outline" [("course_name", VStr "MCP Course")]
         (Ok "Tool result");
       ModelCall p r] /\
    p_messages p
    = [ {| role := "user"; msg_content := ContentText "Complex query" |};
        {| role := "assistant";
           msg_content :=
             ContentBlocks
               [ToolUseBlock "tool_1" "search_course_content"
                  [("query", VStr "first topic")];
                ToolUseBlock "tool_2" "get_course_outline"
                  [("course_name", VStr "MCP Course")]] |};
        {| role := "user";
           msg_content :=
             ContentToolResults
               [ {| tr_type := "tool_result"; tool_use_id := "tool_1";
                    tr_content := "Tool result" |};
                 {| tr_type := "tool_result"; tool_use_id := "tool_2";
                    tr_content := "Tool result" |} ] |} ].
Proof. eexists _, _. split; vm_compute; reflexivity. Qed.


Lemma direct_answer_single_call_witness :
  trace Runs.direct_run
    = [ModelCall (initial_params Fixtures.generator "What is 2+2?" None None)
         (Ok Fixtures.mock_text_response)] /\
  stop_reason Fixtures.mock_text_response <> "tool_use" /\
  model_calls (trace Runs.direct_run)
    = [initial_params Fixtures.generator "What is 2+2?" None None] /\
  tool_execs (trace Runs.direct_run) = [] /\
  outcome Runs.direct_run = Ok "This is a direct answer.".
Proof.
  split; [reflexivity|]. split; [discriminate|].
  apply (direct_answer_single_call Fixtures.generator "What is 2+2?"
           None None None 2
           (Fixtures.world [Fixtures.mock_text_response] "")
           _ Fixtures.mock_text_response []).
  - reflexivity.
  - discriminate.
Defined.

(** C4, as stated, fails: the first response does not signal tool use and
    holds no content block; one model call is made, but no text is
    returned, the lookup of the first block raises. *)
Lemma empty_response_returns_no_text :
  stop_reason MoreRuns.empty_response <> "tool_use" /\
  trace MoreRuns.empty_response_run
    = [ModelCall (initial_params Fixtures.generator "What is 2+2?" None None)
         (Ok MoreRuns.empty_response)] /\
  outcome MoreRuns.empty_response_run = Raise IndexError /\
  forall s, outcome MoreRuns.empty_response_run <> Ok s.
Proof.
  split; [discriminate|]. split; [reflexivity|]. split; [reflexivity|].
  intros s. vm_compute. discriminate.
Qed.

Lemma answer_is_first_block_text_witness :
  outcome Runs.two_round_run
    = Ok "Based on the course content, here is your answer." /\
  exists pre p r blocks,
    trace Runs.two_round_run = pre ++ [ModelCall p (Ok r)] /\
    content r
      = TextBlock "Based on the course content, here is your answer."
          :: blocks /\
    first_text_block (content r)
      = Some "Based on the course content, here is your answer.".
Proof.
  split; [vm_compute; reflexivity|].
  apply (answer_is_first_block_text Fixtures.generator "Multi-step query"
           None (Some Fixtures.search_schema)
           (Some AIGenerator.the_tool_manager) 2).
  vm_compute; reflexivity.
Defined.

(** C5, as stated, fails: the last response holds the text block
    ["answer"] behind a tool-use block, and the run does not return that
    text; the lookup of [text] on the first block raises. *)
Lemma answer_not_searched_behind_first_block :
  last_response (trace Runs.unmanaged_text_last_run) None
    = Some (Ok Fixtures.tool_then_text_response) /\
  first_text_block (content Fixtures.tool_then_text_response)
    = Some "answer" /\
  outcome Runs.unmanaged_text_last_run = Raise (AttributeError "text") /\
  outcome Runs.unmanaged_text_last_run <> Ok "answer".
Proof.
  repeat split; try (vm_compute; reflexivity).
  vm_compute. discriminate.
Qed.

Lemma tool_use_without_manager_or_tools_witness :
  trace Runs.unmanaged_run
    = [ModelCall
         (initial_params Fixtures.generator "Query" None
            (Some Fixtures.search_schema))
         (Ok Fixtures.text_then_tool_response)] /\
  stop_reason Fixtures.text_then_tool_response = "tool_use" /\
  model_calls (trace Runs.unmanaged_run)
    = [initial_params Fixtures.generator "Query" None
         (Some Fixtures.search_schema)] /\
  tool_execs (trace Runs.unmanaged_run) = [] /\
  outcome Runs.unmanaged_run = Ok "Let me search.".
Proof.
  split; [reflexivity|]. split; [reflexivity|].
  apply (tool_use_without_manager_or_tools Fixtures.generator "Query"
           None (Some Fixtures.search_schema) None 2
           (Fixtures.world [Fixtures.text_then_tool_response] "")
           _ Fixtures.text_then_tool_response []).
  - reflexivity.
  - reflexivity.
  - left; reflexivity.
Defined.

Lemma messages_alternate_witness :
  forallb requests_a_tool (trace Runs.two_round_run) = true /\
  nth_error (model_calls (trace Runs.two_round_run)) 2 = Some Runs.third_call /\
  alternates_from "user" (map role (p_messages Runs.third_call)) = true /\
  last (map role (p_messages Runs.third_call)) "" = "user" /\
  List.length (p_messages Runs.third_call) = (2 * 2 + 1)%nat.
Proof.
  split; [vm_compute; reflexivity|]. split; [vm_compute; reflexivity|].
  apply (messages_alternate Fixtures.generator "Multi-step query"
           None (Some Fixtures.search_schema)
           (Some AIGenerator.the_tool_manager) 2
           (Fixtures.world
              [Fixtures.mock_tool_use_response;
               Fixtures.mock_second_tool_use_response;
               Fixtures.mock_final_response] "Tool output")
           2%nat Runs.third_call).
  - vm_compute; reflexivity.
  - vm_compute; reflexivity.
Defined.

Lemma execute_tool_unknown_name_witness :
  SearchTools.dict_get "nonexistent_tool"
    (SearchTools.tools Fixtures.tool_manager_with_search) = None /\
  exists text,
    SearchTools.execute_tool Fixtures.tool_manager_with_search
      "nonexistent_tool" [("query", VStr "test")]
      = (Ok text, Fixtures.tool_manager_with_search) /\
    SearchTools.contains text "nonexistent_tool".
Proof.
  split; [reflexivity|].
  apply (execute_tool_unknown_name Fixtures.tool_manager_with_search
           "nonexistent_tool" [("query", VStr "test")]).
  reflexivity.
Defined.

(** The registry at work: a search through it replaces the old source. *)
Example registry_search_replaces_old_source :
  SearchTools.get_last_sources
    (snd (SearchTools.execute_tool Fixtures.tool_manager_with_search
            "search_course_content" [("query", VStr "new query")]))
  = [ {| SearchTools.displayText := "MCP Course - Lesson 1";
         SearchTools.url := Some "https://example.com/lesson/1" |} ] /\
  fst (SearchTools.execute_tool Fixtures.tool_manager_with_search
         "search_course_content" [("query", VStr "new query")])
  = Ok "[MCP Course - Lesson 1]
Sample content about MCP protocols".
Proof. vm_compute. split; reflexivity. Qed.

(** ** Further properties of the protocol *)

Section ProtocolMore.

Context {C T : Type} `{LLMClient C} `{ToolExecutor T}.

Import AIGenerator.

(** The three ways a run of [generate_response] goes: the first call
    fails, the first response is the answer, or the tool chain is entered
    at round 1 on the first response. *)
Lemma generate_response_cases self query conversation_history tools
    tool_manager max_rounds (w : World C T) :
  (exists e c',
     generate_response self query conversation_history tools tool_manager
       max_rounds w
     = (Raise e, {| client := c'; manager := manager w |},
        [ModelCall (initial_params self query conversation_history tools)
           (Raise e)])) \/
  (exists response c',
     enters_chain response tool_manager tools = false /\
     generate_response self query conversation_history tools tool_manager
       max_rounds w
     = (first_block_text response, {| client := c'; manager := manager w |},
        [ModelCall (initial_params self query conversation_history tools)
           (Ok response)])) \/
  (exists response c' l run',
     tools = Some l /\
     enters_chain response tool_manager tools = true /\
     run' = process_tool_chain_rec (Z.to_nat (max_rounds - 1)) self response
              [ {| role := "user"; msg_content := ContentText query |} ]
              (system_content_of conversation_history) l tool_manager
              1 max_rounds {| client := c'; manager := manager w |} /\
     generate_response self query conversation_history tools tool_manager
       max_rounds w
     = (outcome run', final run',
        ModelCall (initial_params self query conversation_history tools)
          (Ok response) :: trace run')).
Proof.
  destruct (client_messages_create
              (initial_params self query conversation_history tools)
              (client w)) as [r c'] eqn:Hcall.
  rewrite (generate_response_step self query conversation_history tools
             tool_manager max_rounds w r c' Hcall).
  destruct r as [response|e].
  - destruct (enters_chain response tool_manager tools) eqn:Henter.
    + right. right.
      destruct (enters_chain_tool_use _ _ _ Henter) as (_ & _ & Htools).
      destruct tools as [l|]; [|discriminate].
      exists response, c', l. eexists. repeat split; auto.
    + right. left. now exists response, c'.
  - left. now exists e, c'.
Qed.

(** Every model call of the chain carries the system text and the base
    parameters it was entered with. *)
Lemma chain_fixed_params self system_content tools tool_manager max_rounds n :
  forall response messages current_round (w : World C T),
    Forall (fun p =>
              p_model p = bp_model (base_params self) /\
              p_temperature p = bp_temperature (base_params self) /\
              p_max_tokens p = bp_max_tokens (base_params self) /\
              p_system p = system_content)
      (model_calls
         (trace (process_tool_chain_rec n self response messages
                   system_content tools tool_manager current_round
                   max_rounds w))).
Proof.
  apply (chain_rec_ind self system_content tools tool_manager max_rounds
    (fun n response messages current_round w run =>
       Forall (fun p =>
                 p_model p = bp_model (base_params self) /\
                 p_temperature p = bp_temperature (base_params self) /\
                 p_max_tokens p = bp_max_tokens (base_params self) /\
                 p_system p = system_content)
         (model_calls (trace run))));
    clear n; unfold trace; simpl; intros;
    try (rewrite model_calls_app);
    match goal with
    | Hloop : execute_tool_calls _ _ _ _ = _ |- _ =>
        rewrite (tool_loop_no_model_call _ _ _ _ _ _ _ Hloop)
    end; simpl; repeat constructor; auto.
Qed.

(** X1: every model call of a run carries the model name the generator was
    built with, temperature 0, at most 800 tokens, and one and the same
    system text: the prompt, with the history when there is one. *)
Theorem every_call_same_base_params_and_system (api_key model : string)
    (query : string) (conversation_history : option string)
    (tools : option (list ToolDefinition))
    (tool_manager : option ToolManagerRef) (max_rounds : Z) (w : World C T) :
  Forall (fun p =>
            p_model p = model /\
            p_temperature p = 0 /\
            p_max_tokens p = 800 /\
            p_system p = system_content_of conversation_history)
    (model_calls
       (trace (generate_response (__init__ api_key model) query
                 conversation_history tools tool_manager max_rounds w))).
Proof.
  destruct (generate_response_cases (__init__ api_key model) query
              conversation_history tools tool_manager max_rounds w)
    as [(e & c' & ->) | [(response & c' & _ & ->)
                        | (response & c' & l & run' & -> & _ & -> & ->)]];
    unfold trace; simpl; constructor; auto.
  apply (chain_fixed_params (__init__ api_key model)).
Qed.

(** X2: the tool schemas and the tool choice go together: a model call
    either has neither, or has the supplied tool list and the automatic
    choice. *)
Theorem tool_choice_accompanies_tools (self : AIGenerator.t) (query : string)
    (conversation_history : option string)
    (tools : option (list ToolDefinition))
    (tool_manager : option ToolManagerRef) (max_rounds : Z) (w : World C T) :
  Forall (fun p =>
            (p_tools p = None /\ p_tool_choice p = None) \/
            (truthy_list tools = true /\ p_tools p = tools /\
             p_tool_choice p = Some {| choice_type := "auto" |}))
    (model_calls
       (trace (generate_response self query conversation_history tools
                 tool_manager max_rounds w))).
Proof.
  assert (Hfirst :
            (p_tools (initial_params self query conversation_history tools)
               = None /\
             p_tool_choice
               (initial_params self query conversation_history tools) = None)
            \/
            (truthy_list tools = true /\
             p_tools (initial_params self query conversation_history tools)
               = tools /\
             p_tool_choice
               (initial_params self query conversation_history tools)
               = Some {| choice_type := "auto" |})).
  { simpl. destruct (truthy_list tools); auto. }
  destruct (generate_response_cases self query conversation_history tools
              tool_manager max_rounds w)
    as [(e & c' & ->) | [(response & c' & _ & ->)
                        | (response & c' & l & run' & Hl & Hen & -> & ->)]];
    unfold trace; simpl; constructor; auto.
  apply Forall_forall. intros p Hin.
  apply In_nth_error in Hin. destruct Hin as [j Hj].
  match type of Hj with
  | context [process_tool_chain_rec ?n ?s ?resp ?msgs ?sys ?tl ?tm ?c ?m ?w1] =>
      destruct (chain_model_calls s sys tl tm m n resp msgs c w1)
        as [_ Hnth]
  end.
  destruct (Hnth _ _ Hj) as [Ht Hc]. rewrite Ht, Hc.
  destruct (enters_chain_tool_use _ _ _ Hen) as (_ & _ & Htools).
  destruct (1 + Z.of_nat j <? max_rounds); auto.
Qed.

(** X3: whatever the round limit, also zero or negative, a run makes at
    most [max max_rounds 1 + 1] model calls; a limit below 1 still allows
    the one tool round that follows the first response. *)
Theorem call_bound_for_any_limit (self : AIGenerator.t) (query : string)
    (conversation_history : option string)
    (tools : option (list ToolDefinition))
    (tool_manager : option ToolManagerRef) (max_rounds : Z) (w : World C T) :
  Z.of_nat
    (List.length
       (model_calls
          (trace (generate_response self query conversation_history tools
                    tool_manager max_rounds w))))
  <= Z.max max_rounds 1 + 1.
Proof.
  destruct (generate_response_cases self query conversation_history tools
              tool_manager max_rounds w)
    as [(e & c' & ->) | [(response & c' & _ & ->)
                        | (response & c' & l & run' & Hl & Hen & -> & ->)]];
    unfold trace; simpl List.length; try lia.
  match goal with
  | |- context [process_tool_chain_rec ?n ?s ?resp ?msgs ?sys ?tl ?tm ?c ?m ?w1] =>
      destruct (chain_model_calls s sys tl tm m n resp msgs c w1)
        as [Hlen _]
  end.
  unfold trace in Hlen. lia.
Qed.

Lemma round_messages_extends messages response results :
  extends messages (round_messages messages response results).
Proof.
  unfold extends, round_messages.
  destruct (nonempty results); [|eauto].
  rewrite <- app_assoc. eauto.
Qed.

Lemma extends_trans a b c : extends a b -> extends b c -> extends a c.
Proof.
  intros [s1 ->] [s2 ->]. exists (s1 ++ s2). now rewrite app_assoc.
Qed.

(** Along the chain the conversation only grows: every call extends the
    messages the chain was entered with, and every later call extends
    every earlier one. *)
Lemma chain_messages_grow self system_content tools tool_manager max_rounds n :
  forall response messages current_round (w : World C T),
    let calls :=
      model_calls
        (trace (process_tool_chain_rec n self response messages
                  system_content tools tool_manager current_round
                  max_rounds w)) in
    Forall (fun q => extends messages (p_messages q)) calls /\
    ForallOrdPairs (fun p q => extends (p_messages p) (p_messages q)) calls.
Proof.
  apply (chain_rec_ind self system_content tools tool_manager max_rounds
    (fun n response messages current_round w run =>
       Forall (fun q => extends messages (p_messages q))
         (model_calls (trace run)) /\
       ForallOrdPairs (fun p q => extends (p_messages p) (p_messages q))
         (model_calls (trace run))));
    clear n; unfold trace; simpl; intros;
    try (rewrite model_calls_app);
    match goal with
    | Hloop : execute_tool_calls _ _ _ _ = _ |- _ =>
        rewrite (tool_loop_no_model_call _ _ _ _ _ _ _ Hloop)
    end; simpl.
  - split; constructor.
  - split; repeat constructor. apply round_messages_extends.
  - split; repeat constructor. apply round_messages_extends.
  - match goal with IH : _ /\ _ |- _ => destruct IH as [Hall Hord] end.
    split.
    + constructor; [apply round_messages_extends|].
      eapply Forall_impl; [|exact Hall]. intros q Hq.
      eapply extends_trans; [apply round_messages_extends|exact Hq].
    + constructor; assumption.
  - split; repeat constructor. apply round_messages_extends.
Qed.

(** X4: within a run the conversation only grows: the message list of
    every model call begins with the user message holding the query, and
    the list of a later call is the list of any earlier call with
    messages appended; nothing sent once is dropped or rewritten. *)
Theorem messages_only_grow (self : AIGenerator.t) (query : string)
    (conversation_history : option string)
    (tools : option (list ToolDefinition))
    (tool_manager : option ToolManagerRef) (max_rounds : Z) (w : World C T) :
  let calls :=
    model_calls
      (trace (generate_response self query conversation_history tools
                tool_manager max_rounds w)) in
  Forall (fun q =>
            extends [ {| role := "user"; msg_content := ContentText query |} ]
              (p_messages q)) calls /\
  ForallOrdPairs (fun p q => extends (p_messages p) (p_messages q)) calls.
Proof.
  assert (Hself : forall l : list Message, extends l l)
    by (intros l; exists []; now rewrite app_nil_r).
  destruct (generate_response_cases self query conversation_history tools
              tool_manager max_rounds w)
    as [(e & c' & ->) | [(response & c' & _ & ->)
                        | (response & c' & l & run' & Hl & Hen & -> & ->)]];
    unfold trace; simpl; try (split; repeat constructor; apply Hself).
  match goal with
  | |- context [process_tool_chain_rec ?n ?s ?resp ?msgs ?sys ?tl ?tm ?c ?m ?w1] =>
      destruct (chain_messages_grow s sys tl tm m n resp msgs c w1)
        as [Hall Hord]
  end.
  unfold trace in Hall, Hord.
  split; constructor; auto.
Qed.

Lemma first_failure_app (t1 t2 : list Event) :
  first_failure (t1 ++ t2) =
  match first_failure t1 with
  | Some (e, rest) => Some (e, rest ++ t2)
  | None => first_failure t2
  end.
Proof.
  induction t1 as [|ev t1 IH]; simpl; [reflexivity|].
  destruct (failure ev); [reflexivity|exact IH].
Qed.

Lemma first_failure_exec_events uses outs :
  first_failure (exec_events uses outs) = None.
Proof.
  unfold exec_events.
  induction (combine uses outs) as [|[[[i n] a] o] l IH]; simpl; auto.
Qed.

(** In the tool loop a failed execution is the last event, and its
    exception is what the loop raises. *)
Lemma tool_loop_failure tool_manager blocks :
  forall acc (w : World C T) res w1 t1 e rest,
    execute_tool_calls tool_manager blocks acc w = (res, w1, t1) ->
    first_failure t1 = Some (e, rest) ->
    rest = [] /\ res = Raise e.
Proof.
  induction blocks as [|b blocks IH]; intros acc w res w1 t1 e rest; simpl.
  - intros [= <- <- <-]. discriminate.
  - destruct b as [s | id name input]; [apply IH|].
    unfold bind, execute_tool.
    destruct tool_manager as [ref|]; simpl.
    + destruct (manager_execute_tool name input (manager w)) as [[out|e0] t'].
      * destruct (execute_tool_calls (Some ref) blocks _ _)
          as [[res2 w2] t2] eqn:Hrec.
        intros [= <- <- <-]. simpl. eapply IH; eauto.
      * intros [= <- <- <-]. simpl. intros [= <- <-]. auto.
    + unfold raise. intros [= <- <- <-]. discriminate.
Qed.

Lemma chain_failure_final self system_content tools tool_manager max_rounds n :
  forall response messages current_round (w : World C T),
    let run :=
      process_tool_chain_rec n self response messages system_content tools
        tool_manager current_round max_rounds w in
    forall e rest, first_failure (trace run) = Some (e, rest) ->
      rest = [] /\ outcome run = Raise e.
Proof.
  apply (chain_rec_ind self system_content tools tool_manager max_rounds
    (fun n response messages current_round w run =>
       forall e rest, first_failure (trace run) = Some (e, rest) ->
         rest = [] /\ outcome run = Raise e));
    clear n; unfold trace, outcome; simpl.
  - intros n response messages c w e w1 t1 Hloop e0 rest Hf.
    destruct (tool_loop_failure _ _ _ _ _ _ _ _ _ Hloop Hf) as [-> Hres].
    injection Hres as ->. auto.
  - intros n response messages c w results w1 t1 e c' Hloop Hcall e0 rest.
    destruct (tool_loop_completes _ _ _ _ _ _ _ Hloop) as (outs & _ & -> & _).
    rewrite first_failure_app, first_failure_exec_events. simpl.
    intros [= <- <-]. auto.
  - intros n response messages c w results w1 t1 next c' Hloop Hcall Hmore
      e0 rest.
    destruct (tool_loop_completes _ _ _ _ _ _ _ Hloop) as (outs & _ & -> & _).
    rewrite first_failure_app, first_failure_exec_events. simpl.
    discriminate.
  - intros n response messages c w results w1 t1 next c' Hloop Hcall Hmore
      run' IH e0 rest.
    destruct (tool_loop_completes _ _ _ _ _ _ _ Hloop) as (outs & _ & -> & _).
    rewrite first_failure_app, first_failure_exec_events. simpl.
    apply IH.
  - intros response messages c w results w1 t1 next c' Hloop Hcall Hmore
      e0 rest.
    destruct (tool_loop_completes _ _ _ _ _ _ _ Hloop) as (outs & _ & -> & _).
    rewrite first_failure_app, first_failure_exec_events. simpl.
    discriminate.
Qed.

(** X5: a failed model call or tool execution ends the run at once:
    nothing is called after it (no retry, no further round), and its
    exception is what [generate_response] raises. *)
Theorem failed_call_ends_the_run (self : AIGenerator.t) (query : string)
    (conversation_history : option string)
    (tools : option (list ToolDefinition))
    (tool_manager : option ToolManagerRef) (max_rounds : Z) (w : World C T) :
  let run :=
    generate_response self query conversation_history tools tool_manager
      max_rounds w in
  match first_failure (trace run) with
  | Some (e, rest) => rest = [] /\ outcome run = Raise e
  | None => True
  end.
Proof.
  cbv zeta.
  destruct (generate_response_cases self query conversation_history tools
              tool_manager max_rounds w)
    as [(e & c' & ->) | [(response & c' & _ & ->)
                        | (response & c' & l & run' & Hl & Hen & -> & ->)]];
    unfold trace at 1, outcome at 1; simpl; auto.
  destruct (first_failure (trace _)) as [[e rest]|] eqn:Hf; [|exact I].
  now apply chain_failure_final in Hf.
Qed.

(** X6: without a tool manager, or without a non-empty tool list, a run
    is a single model call whatever the response says: no tool is
    executed and the tool manager is left as it was. *)
Theorem single_call_without_manager_or_tools (self : AIGenerator.t)
    (query : string) (conversation_history : option string)
    (tools : option (list ToolDefinition))
    (tool_manager : option ToolManagerRef) (max_rounds : Z) (w : World C T) :
  let run :=
    generate_response self query conversation_history tools tool_manager
      max_rounds w in
  tool_manager = None \/ truthy_list tools = false ->
  (exists p r, trace run = [ModelCall p r]) /\
  manager (final run) = manager w.
Proof.
  cbv zeta. intros Hnone.
  destruct (generate_response_cases self query conversation_history tools
              tool_manager max_rounds w)
    as [(e & c' & ->) | [(response & c' & _ & ->)
                        | (response & c' & l & run' & Hl & Hen & _ & _)]];
    unfold trace, final; simpl; eauto.
  destruct (enters_chain_tool_use _ _ _ Hen) as (_ & Hmgr & Htools).
  destruct Hnone as [Hn | Hn]; [contradiction|congruence].
Qed.

Lemma tool_loop_without_tool_use tool_manager blocks :
  forall acc (w : World C T),
    tool_uses blocks = [] ->
    execute_tool_calls tool_manager blocks acc w = (Ok acc, w, []).
Proof.
  induction blocks as [|[s|i n a] blocks IH]; intros acc w Huses; simpl.
  - reflexivity.
  - now apply IH.
  - discriminate.
Qed.

(** X7: a response handed to the tool chain without any tool-use block
    runs no tool, and no user turn is appended: the next model call comes
    first and sends the previous messages followed by the assistant turn
    only, so that its list ends with an assistant message. *)
Theorem round_without_tool_use_block (self : AIGenerator.t)
    (response : Response) (messages : list Message) (system_content : string)
    (tools : list ToolDefinition) (tool_manager : option ToolManagerRef)
    (current_round max_rounds : Z) (w : World C T) :
  tool_uses (content response) = [] ->
  exists p r rest,
    trace (_process_tool_chain self response messages system_content tools
             tool_manager current_round max_rounds w)
      = ModelCall p r :: rest /\
    p_messages p = messages ++ [assistant_message response].
Proof.
  intros Huses. unfold _process_tool_chain.
  generalize (Z.to_nat (max_rounds - current_round)). intros n.
  pose proof (tool_loop_without_tool_use tool_manager (content response)
                [] w Huses) as Hloop.
  pose proof (chain_step n self response messages system_content tools
                tool_manager current_round max_rounds w _ _ _ Hloop) as Hstep.
  cbv zeta in Hstep.
  destruct (client_messages_create
              (round_params self (round_messages messages response [])
                 system_content tools current_round max_rounds)
              (client w)) as [[next|e] c'] eqn:Hcall;
    rewrite (Hstep _ _ Hcall).
  - destruct (another_round next current_round max_rounds); [destruct n|];
      unfold trace; simpl; eexists _, _, _; split; reflexivity.
  - unfold trace; simpl; eexists _, _, _; split; reflexivity.
Qed.

Lemma ok_responses_app (t1 t2 : list Event) :
  ok_responses (t1 ++ t2) = ok_responses t1 ++ ok_responses t2.
Proof.
  induction t1 as [|ev t1 IH]; simpl; [reflexivity|].
  destruct ev as [p [r|e]|]; simpl; now rewrite IH.
Qed.

Lemma ok_responses_no_model_call (tr : list Event) :
  model_calls tr = [] -> ok_responses tr = [].
Proof.
  induction tr as [|ev tr IH]; [reflexivity|].
  destruct ev; simpl; [discriminate|exact IH].
Qed.

Lemma removelast_cons_nonempty {A : Type} (x : A) (l : list A) :
  l <> [] -> removelast (x :: l) = x :: removelast l.
Proof.
  destruct l; [contradiction|reflexivity].
Qed.

Lemma Forall_removelast_cons {A : Type} (P : A -> Prop) x l :
  P x -> Forall P (removelast l) -> Forall P (removelast (x :: l)).
Proof.
  intros Hx Hl. destruct l as [|y l]; [constructor|].
  rewrite removelast_cons_nonempty by discriminate. now constructor.
Qed.

(** Along the chain a response is followed by another model call only if
    it stopped for tool use, and a call is followed by another call only
    if it carried the tool schemas. *)
Lemma chain_continues self system_content tools tool_manager max_rounds n :
  forall response messages current_round (w : World C T),
    let run :=
      process_tool_chain_rec n self response messages system_content tools
        tool_manager current_round max_rounds w in
    Forall (fun r => stop_reason r = "tool_use")
      (removelast (ok_responses (trace run))) /\
    Forall (fun p => p_tools p = Some tools /\
                     p_tool_choice p = Some {| choice_type := "auto" |})
      (removelast (model_calls (trace run))).
Proof.
  apply (chain_rec_ind self system_content tools tool_manager max_rounds
    (fun n response messages current_round w run =>
       Forall (fun r => stop_reason r = "tool_use")
         (removelast (ok_responses (trace run))) /\
       Forall (fun p => p_tools p = Some tools /\
                        p_tool_choice p = Some {| choice_type := "auto" |})
         (removelast (model_calls (trace run)))));
    clear n; unfold trace; simpl; intros;
    try (rewrite model_calls_app, ok_responses_app);
    match goal with
    | Hloop : execute_tool_calls _ _ _ _ = _ |- _ =>
        rewrite ?(tool_loop_no_model_call _ _ _ _ _ _ _ Hloop),
          ?(ok_responses_no_model_call _
              (tool_loop_no_model_call _ _ _ _ _ _ _ Hloop))
    end; simpl; try (split; constructor).
  match goal with IH : _ /\ _ |- _ => destruct IH as [Hresp Hcalls] end.
  match goal with
  | Hmore : another_round _ _ _ = true |- _ =>
      pose proof (another_round_tool_use _ _ _ Hmore) as Hstop;
      unfold another_round in Hmore;
      apply andb_true_iff in Hmore; destruct Hmore as [_ Hlt]
  end.
  split; apply Forall_removelast_cons; auto.
  simpl. rewrite Hlt. auto.
Qed.

(** X8: a run goes on after a model response only if that response
    stopped for tool use: every response but the last one received has
    stop reason [tool_use]. *)
Theorem run_continues_only_after_tool_use (self : AIGenerator.t)
    (query : string) (conversation_history : option string)
    (tools : option (list ToolDefinition))
    (tool_manager : option ToolManagerRef) (max_rounds : Z) (w : World C T) :
  Forall (fun r => stop_reason r = "tool_use")
    (removelast
       (ok_responses
          (trace (generate_response self query conversation_history tools
                    tool_manager max_rounds w)))).
Proof.
  destruct (generate_response_cases self query conversation_history tools
              tool_manager max_rounds w)
    as [(e & c' & ->) | [(response & c' & _ & ->)
                        | (response & c' & l & run' & Hl & Hen & -> & ->)]];
    unfold trace at 1; try (simpl; constructor).
  cbn [snd ok_responses].
  destruct (enters_chain_tool_use _ _ _ Hen) as (Hstop & _ & _).
  apply Forall_removelast_cons; [exact Hstop|].
  apply chain_continues.
Qed.

(** X9: a model call made without tool schemas is the last model call of
    its run: every call but the last carries the supplied tool list and
    the automatic choice. *)
Theorem call_without_tools_is_last (self : AIGenerator.t)
    (query : string) (conversation_history : option string)
    (tools : option (list ToolDefinition))
    (tool_manager : option ToolManagerRef) (max_rounds : Z) (w : World C T) :
  Forall (fun p => truthy_list tools = true /\ p_tools p = tools /\
                   p_tool_choice p = Some {| choice_type := "auto" |})
    (removelast
       (model_calls
          (trace (generate_response self query conversation_history tools
                    tool_manager max_rounds w)))).
Proof.
  destruct (generate_response_cases self query conversation_history tools
              tool_manager max_rounds w)
    as [(e & c' & ->) | [(response & c' & _ & ->)
                        | (response & c' & l & run' & -> & Hen & -> & ->)]];
    unfold trace at 1; try (simpl; constructor).
  cbn [snd model_calls].
  destruct (enters_chain_tool_use _ _ _ Hen) as (_ & _ & Htools).
  apply Forall_removelast_cons.
  - cbn [initial_params p_tools p_tool_choice]. rewrite Htools. auto.
  - eapply Forall_impl; [|apply chain_continues].
    simpl. intros p [Ht Hc]. auto.
Qed.

Lemma tool_execs_exec_events uses :
  forall outs, List.length outs = List.length uses ->
    tool_execs (exec_events uses outs)
    = map (fun u => match u with (_, name, input) => (name, input) end) uses.
Proof.
  unfold exec_events.
  induction uses as [|[[i n] a] uses IH]; intros [|o outs] Hlen;
    simpl in *; try discriminate; [reflexivity|].
  f_equal. apply IH. lia.
Qed.

(** A chain that returns a value executed the requests of the response it
    was entered on and of every response it received but the last. *)
Lemma chain_executes_requests self system_content tools tool_manager
    max_rounds n :
  forall response messages current_round (w : World C T),
    let run :=
      process_tool_chain_rec n self response messages system_content tools
        tool_manager current_round max_rounds w in
    forall v, outcome run = Ok v ->
      ok_responses (trace run) <> [] /\
      tool_execs (trace run)
      = requested_calls response
        ++ flat_map requested_calls (removelast (ok_responses (trace run))).
Proof.
  apply (chain_rec_ind self system_content tools tool_manager max_rounds
    (fun n response messages current_round w run =>
       forall v, outcome run = Ok v ->
         ok_responses (trace run) <> [] /\
         tool_execs (trace run)
         = requested_calls response
           ++ flat_map requested_calls
                (removelast (ok_responses (trace run)))));
    clear n; unfold trace, outcome; simpl; try discriminate.
  - intros n response messages c w results w1 t1 next c' Hloop Hcall Hmore
      v _.
    destruct (tool_loop_completes _ _ _ _ _ _ _ Hloop)
      as (outs & Hlen & Ht1 & _).
    rewrite tool_execs_app, ok_responses_app,
      (ok_responses_no_model_call _
         (tool_loop_no_model_call _ _ _ _ _ _ _ Hloop)).
    rewrite Ht1, (tool_execs_exec_events _ _ Hlen). simpl.
    split; [discriminate|]. unfold requested_calls.
    now rewrite !app_nil_r.
  - intros n response messages c w results w1 t1 next c' Hloop Hcall Hmore
      run' IH v Hv.
    destruct (IH v Hv) as [Hne Hex].
    destruct (tool_loop_completes _ _ _ _ _ _ _ Hloop)
      as (outs & Hlen & Ht1 & _).
    rewrite tool_execs_app, ok_responses_app,
      (ok_responses_no_model_call _
         (tool_loop_no_model_call _ _ _ _ _ _ _ Hloop)).
    rewrite Ht1, (tool_execs_exec_events _ _ Hlen).
    cbn [app tool_execs ok_responses].
    split; [discriminate|].
    rewrite (removelast_cons_nonempty _ _ Hne). cbn [flat_map].
    unfold trace in Hex. rewrite Hex. reflexivity.
Qed.

(** X10: in a run that returns a value, the tool executions are exactly
    the requests of the responses received, the last response excepted:
    each tool-use block of each such response is executed once, with its
    name and arguments, in the order of the responses and of their
    blocks; the blocks of the last response are never executed. *)
Theorem executed_tools_are_the_requested_ones (self : AIGenerator.t)
    (query : string) (conversation_history : option string)
    (tools : option (list ToolDefinition))
    (tool_manager : option ToolManagerRef) (max_rounds : Z) (w : World C T)
    (v : string) :
  let run :=
    generate_response self query conversation_history tools tool_manager
      max_rounds w in
  outcome run = Ok v ->
  tool_execs (trace run)
  = flat_map requested_calls (removelast (ok_responses (trace run))).
Proof.
  cbv zeta.
  destruct (generate_response_cases self query conversation_history tools
              tool_manager max_rounds w)
    as [(e & c' & ->) | [(response & c' & _ & ->)
                        | (response & c' & l & run' & Hl & Hen & Hrun & ->)]].
  - discriminate.
  - reflexivity.
  - pose proof (chain_executes_requests self
                  (system_content_of conversation_history) l tool_manager
                  max_rounds (Z.to_nat (max_rounds - 1)) response
                  [ {| role := "user"; msg_content := ContentText query |} ]
                  1 {| client := c'; manager := manager w |}) as Hchain.
    cbv zeta in Hchain. rewrite <- Hrun in Hchain.
    unfold outcome, trace in *. cbn [fst snd]. intros Hv.
    destruct (Hchain v Hv) as [Hne Hex].
    cbn [tool_execs ok_responses].
    rewrite (removelast_cons_nonempty _ _ Hne). cbn [flat_map].
    exact Hex.
Qed.

Lemma tool_loop_without_manager blocks :
  forall acc (w : World C T),
    tool_uses blocks <> [] ->
    execute_tool_calls None blocks acc w
    = (Raise (AttributeError "execute_tool"), w, []).
Proof.
  induction blocks as [|[s|i n a] blocks IH]; intros acc w Huses; simpl.
  - contradiction.
  - now apply IH.
  - reflexivity.
Qed.

(** X11: the tool chain entered with no tool manager on a response that
    requests a tool raises [AttributeError] at the first request: no tool
    is executed, no model call is made and the heap is left as it was. *)
Theorem chain_without_manager_raises (self : AIGenerator.t)
    (response : Response) (messages : list Message) (system_content : string)
    (tools : list ToolDefinition) (current_round max_rounds : Z)
    (w : World C T) :
  tool_uses (content response) <> [] ->
  _process_tool_chain self response messages system_content tools None
    current_round max_rounds w
  = (Raise (AttributeError "execute_tool"), w, []).
Proof.
  intros Huses. unfold _process_tool_chain.
  exact (chain_step _ self response messages system_content tools None
           current_round max_rounds w _ _ _
           (tool_loop_without_manager (content response) [] w Huses)).
Qed.

End ProtocolMore.

(** ** The further properties at concrete runs *)

Example transport_failure_run_trace :
  outcome MoreRuns.transport_failure_run = Raise (APIError "overloaded") /\
  List.length (model_calls (trace MoreRuns.transport_failure_run)) = 2%nat /\
  List.length (tool_execs (trace MoreRuns.transport_failure_run)) = 1%nat /\
  List.length (client (final MoreRuns.transport_failure_run)) = 1%nat.
Proof. vm_compute. repeat split. Qed.

Example tool_failure_run_trace :
  outcome MoreRuns.tool_failure_run = Raise (ValueError "search failed") /\
  List.length (model_calls (trace MoreRuns.tool_failure_run)) = 1%nat /\
  tool_execs (trace MoreRuns.tool_failure_run)
    = [("search_course_content", [("query", VStr "first topic")])].
Proof. vm_compute. repeat split. Qed.

Lemma single_call_without_manager_or_tools_witness :
  ((None : option AIGenerator.ToolManagerRef) = None \/
   truthy_list (Some Fixtures.search_schema) = false) /\
  (exists p r, trace Runs.unmanaged_run = [ModelCall p r]) /\
  manager (final Runs.unmanaged_run)
    = manager (Fixtures.world [Fixtures.text_then_tool_response] "").
Proof.
  split; [left; reflexivity|].
  apply (single_call_without_manager_or_tools Fixtures.generator "Query"
           None (Some Fixtures.search_schema) None 2
           (Fixtures.world [Fixtures.text_then_tool_response] "")).
  left; reflexivity.
Defined.

Lemma round_without_tool_use_block_witness :
  tool_uses (content MoreRuns.tool_use_without_block_response) = [] /\
  exists p r rest,
    trace MoreRuns.no_block_run = ModelCall p r :: rest /\
    p_messages p =
      [ {| role := "user"; msg_content := ContentText "Query" |} ]
      ++ [AIGenerator.assistant_message
            MoreRuns.tool_use_without_block_response].
Proof.
  split; [reflexivity|].
  apply (round_without_tool_use_block Fixtures.generator
           MoreRuns.tool_use_without_block_response
           [ {| role := "user"; msg_content := ContentText "Query" |} ]
           AIGenerator.SYSTEM_PROMPT Fixtures.search_schema
           (Some AIGenerator.the_tool_manager) 1 2
           (Fixtures.world [Fixtures.mock_final_response] "unused")).
  reflexivity.
Defined.

Lemma executed_tools_are_the_requested_ones_witness :
  outcome Runs.two_round_run
    = Ok "Based on the course content, here is your answer." /\
  tool_execs (trace Runs.two_round_run)
  = flat_map requested_calls
      (removelast (ok_responses (trace Runs.two_round_run))).
Proof.
  split; [vm_compute; reflexivity|].
  apply (executed_tools_are_the_requested_ones Fixtures.generator
           "Multi-step query" None (Some Fixtures.search_schema)
           (Some AIGenerator.the_tool_manager) 2
           (Fixtures.world
              [Fixtures.mock_tool_use_response;
               Fixtures.mock_second_tool_use_response;
               Fixtures.mock_final_response] "Tool output")
           "Based on the course content, here is your answer.").
  vm_compute; reflexivity.
Defined.

Lemma chain_without_manager_raises_witness :
  tool_uses (content Fixtures.mock_tool_use_response) <> [] /\
  MoreRuns.chain_without_manager_run
  = (Raise (AttributeError "execute_tool"),
     Fixtures.world [Fixtures.mock_final_response] "unused", []).
Proof.
  split; [discriminate|].
  apply (chain_without_manager_raises Fixtures.generator
           Fixtures.mock_tool_use_response
           [ {| role := "user"; msg_content := ContentText "Query" |} ]
           AIGenerator.SYSTEM_PROMPT Fixtures.search_schema 1 2
           (Fixtures.world [Fixtures.mock_final_response] "unused")).
  discriminate.
Defined.
